(** * get_factors.py: return acquisition with provider fallback

    A shallow embedding of [src/get_factors.py].  The script reads a list
    of tickers from a CSV file, downloads an adjusted price history for
    each ticker from yfinance, retries the tickers that yielded nothing
    through the Financial Modeling Prep (FMP) HTTP API, and assembles the
    per-ticker return series into one pandas DataFrame.

    Modelling choices.
    - Prices are exact rationals ([Q]); the results of the float
      arithmetic that the script can observe as special values (NaN and
      the two infinities) are explicit constructors of [cell].  Rounding
      and the sign of zero are not modelled.  Finite results are kept in
      lowest terms, so that equal numbers are equal terms.
    - A pandas Series is a list of (date, value) rows in index order, so
      that order and repeated dates are visible.
    - A Python dict is an insertion-ordered association list with
      replace-in-place assignment, which is also the order pandas uses
      for the columns of a frame built from a dict.
    - The outside world (file system, environment, the two services) is
      a record of functions; every call and every printed line is logged
      as an event, and exceptions are values of [exn].
    - What the libraries decide is a class of its own, [Libraries],
      shared by all the runs a statement compares: the text that
      [str(e)] gives for an exception, and whether an in-place method
      called on [df['Return']] reaches the column of [df] (it does not
      under pandas' copy-on-write, nor on a frame whose columns are a
      MultiIndex). *)

From Stdlib Require Import List ZArith QArith Qreduction String Bool Lia.
From Stdlib Require Import Sorted Permutation.
Import ListNotations.

Local Open Scope Z_scope.

(** ** Values held by a float column *)

Module Cell.

Inductive cell : Type :=
| NaN                (* numpy.nan, the missing-value marker *)
| PInf               (* numpy.inf *)
| NInf               (* -numpy.inf *)
| Fin (q : Q).       (* a finite number *)

Definition is_inf (c : cell) : bool :=
  match c with PInf | NInf => true | _ => false end.

Definition Qzero (q : Q) : bool := (Qnum q =? 0)%Z.
Definition Qpositive (q : Q) : bool := (0 <? Qnum q)%Z.

(** Float division [a / b] as numpy evaluates it: a nonzero number over
    zero is an infinity of the sign of the numerator, zero over zero is
    NaN. *)
Definition div (a b : cell) : cell :=
  match a, b with
  | NaN, _ | _, NaN => NaN
  | Fin x, Fin y =>
      if Qzero y then
        (if Qzero x then NaN else if Qpositive x then PInf else NInf)
      else Fin (Qred (x / y))
  | Fin _, (PInf | NInf) => Fin 0
  | PInf, Fin y => if Qzero y || Qpositive y then PInf else NInf
  | NInf, Fin y => if Qzero y || Qpositive y then NInf else PInf
  | (PInf | NInf), (PInf | NInf) => NaN
  end.

(** Float subtraction [a - b]. *)
Definition sub (a b : cell) : cell :=
  match a, b with
  | NaN, _ | _, NaN => NaN
  | Fin x, Fin y => Fin (Qred (x - y))
  | Fin _, PInf => NInf
  | Fin _, NInf => PInf
  | PInf, Fin _ => PInf
  | NInf, Fin _ => NInf
  | PInf, NInf => PInf
  | NInf, PInf => NInf
  | PInf, PInf | NInf, NInf => NaN
  end.

Definition one : cell := Fin 1.

(** [price[i]/price[i-1] - 1] on two prices. *)
Definition change (prev cur : Q) : cell := sub (div (Fin cur) (Fin prev)) one.

End Cell.
Export Cell.

(** ** pandas Series *)

Definition date := Z.
Definition price := Q.
Definition Series (A : Type) := list (date * A).

Definition dates {A} (s : Series A) : list date := map fst s.
Definition values {A} (s : Series A) : list A := map snd s.

(** [Series.pct_change()] on a column of finite prices: the first row has
    no predecessor and holds NaN, every later row holds the fractional
    change from the row before it. *)
Fixpoint pct_change_from (prev : price) (s : Series price) : Series cell :=
  match s with
  | [] => []
  | (d, p) :: rest => (d, change prev p) :: pct_change_from p rest
  end.

Definition pct_change (s : Series price) : Series cell :=
  match s with
  | [] => []
  | (d, p) :: rest => (d, NaN) :: pct_change_from p rest
  end.

(** [Series.replace([np.inf, -np.inf], np.nan)] on the values of a
    column. *)
Definition replace_inf_cell (c : cell) : cell :=
  if is_inf c then NaN else c.

Definition replace_inf (s : Series cell) : Series cell :=
  map (fun dc => (fst dc, replace_inf_cell (snd dc))) s.

(** The [Return] column with the replacement of lines 31 and 59 carried
    out on it. *)
Definition Return (close : Series price) : Series cell :=
  replace_inf (pct_change close).

(** Lines 30-32 and 58-60: the column that is stored for a ticker.  Line
    30 (58) puts [pct_change] in the frame; line 31 (59) calls the
    replacement, in place, on the object that [df['Return']] hands out;
    line 32 (60) reads [df['Return']] again.  When the in-place call
    reaches the frame ([rewritten]) the stored column is [Return];
    when it acts on a temporary the frame still holds [pct_change]. *)
Definition stored_Return (rewritten : bool) (close : Series price)
  : Series cell :=
  if rewritten then Return close else pct_change close.

(** ** Sorting and index union *)

(** [sort_index]: rows ordered by ascending key.  Insertion keeps rows
    with equal keys in their original order; pandas' default sort may
    order such rows otherwise, and nothing proved below depends on the
    order of rows that share a date. *)
Fixpoint insert_by {A} (key : A -> Z) (x : A) (l : list A) : list A :=
  match l with
  | [] => [x]
  | y :: r => if key x <=? key y then x :: y :: r else y :: insert_by key x r
  end.

Fixpoint sort_by {A} (key : A -> Z) (l : list A) : list A :=
  match l with
  | [] => []
  | x :: r => insert_by key x (sort_by key r)
  end.

Definition key_le {A} (key : A -> Z) (a b : A) : Prop := key a <= key b.

Definition sort_index {A} (s : Series A) : Series A := sort_by fst s.
Definition sort_values (i : list date) : list date := sort_by (fun d => d) i.

Fixpoint dates_eqb (a b : list date) : bool :=
  match a, b with
  | [], [] => true
  | x :: a', y :: b' => (x =? y) && dates_eqb a' b'
  | _, _ => false
  end.

Fixpoint mem_date (d : date) (l : list date) : bool :=
  match l with
  | [] => false
  | x :: r => (d =? x) || mem_date d r
  end.

(** [not Index.is_unique] *)
Fixpoint has_duplicates (l : list date) : bool :=
  match l with
  | [] => false
  | x :: r => mem_date x r || has_duplicates r
  end.

(** Union of two ascending lists; a date found in both is taken once per
    matching pair, so a date repeated inside one list keeps the larger of
    its two multiplicities. *)
Fixpoint merge_union (a : list date) : list date -> list date :=
  match a with
  | [] => fun b => b
  | x :: a' =>
      fix against (b : list date) : list date :=
        match b with
        | [] => x :: a'
        | y :: b' =>
            if x <? y then x :: merge_union a' (y :: b')
            else if y <? x then y :: against b'
            else x :: merge_union a' b'
        end
  end.

(** [Index.union(other, sort=None)]: the receiver itself when the other
    index is empty or equal, the other index when the receiver is empty,
    and the sorted union otherwise. *)
Definition index_union (a b : list date) : list date :=
  match b with
  | [] => a
  | _ :: _ =>
      if dates_eqb a b then a
      else match a with
           | [] => b
           | _ :: _ => merge_union (sort_values a) (sort_values b)
           end
  end.

(** pandas' [union_indexes]: left fold of [Index.union] from the first. *)
Definition union_indexes (l : list (list date)) : list date :=
  match l with
  | [] => []
  | i :: rest => fold_left index_union rest i
  end.

(** ** Python dict *)

Definition ticker := string.
Definition dict (V : Type) := list (ticker * V).

Definition keys {V} (d : dict V) : list ticker := map fst d.

Fixpoint dict_get {V} (k : ticker) (d : dict V) : option V :=
  match d with
  | [] => None
  | (k', v) :: r => if String.eqb k k' then Some v else dict_get k r
  end.

(** [k in d] *)
Definition dict_mem {V} (k : ticker) (d : dict V) : bool :=
  match dict_get k d with Some _ => true | None => false end.

(** [d[k] = v]: an existing key keeps its position. *)
Fixpoint dict_set {V} (k : ticker) (v : V) (d : dict V) : dict V :=
  match d with
  | [] => [(k, v)]
  | (k', v') :: r =>
      if String.eqb k k' then (k, v) :: r else (k', v') :: dict_set k v r
  end.

(** [d.update(other)] *)
Definition dict_update {V} (d other : dict V) : dict V :=
  fold_left (fun acc kv => dict_set (fst kv) (snd kv) acc) other d.

(** ** Exceptions, frames and the outside world *)

Inductive exn : Type :=
| FileNotFoundError
| KeyError (key : string)
| ValueError (msg : string)
| HTTPError (status : Z)
| JSONDecodeError
| OtherException (msg : string).

Definition is_FileNotFoundError (e : exn) : bool :=
  match e with FileNotFoundError => true | _ => false end.

(** A value read from a CSV column: text, or something that is not a
    [str] (a blank cell read as NaN, a number). *)
Inductive csv_value : Type :=
| CsvStr (s : string)
| CsvNaN
| CsvNumber (q : Q).

Definition csv_table := list (string * list csv_value).

Fixpoint csv_column (name : string) (df : csv_table) : option (list csv_value) :=
  match df with
  | [] => None
  | (n, col) :: r => if String.eqb name n then Some col else csv_column name r
  end.

(** What [yf.download] hands back: a frame whose [Close] column holds the
    adjusted prices, or a frame that has rows but no such column. *)
Inductive yf_frame : Type :=
| FrameWithClose (close : Series price)
| FrameWithoutClose (idx : list date).

Definition frame_empty (f : yf_frame) : bool :=
  match f with
  | FrameWithClose [] | FrameWithoutClose [] => true
  | _ => false
  end.

(** The text of an FMP response, by what the script can do with it. *)
Inductive payload : Type :=
| NotJson                                   (* json.loads raises *)
| NoHistorical                              (* 'historical' in data is False *)
| BadHistorical (e : exn)                   (* building or parsing the frame raises e *)
| Historical (records : list (date * price)).

Record http_response : Type := { status_code : Z; text : payload }.

Record DataFrame : Type :=
  { index : list date; columns : list (ticker * list cell) }.

Record World : Type :=
  { read_csv : string -> exn + csv_table;
    getenv : string -> option string;
    yf_download : ticker -> string -> string -> exn + yf_frame;
    requests_get : string -> exn + http_response }.

(** The libraries the script runs on.  [exn_text] is Python's [str(e)],
    the text an f-string prints for an exception.  [copy_on_write] says
    that pandas runs with copy-on-write (the only mode from pandas 3
    on), [multi_level_columns] that the frames of [yf.download] have
    MultiIndex columns (what current yfinance returns, also for one
    ticker). *)
Class Libraries : Type :=
  { exn_text : exn -> string;
    copy_on_write : bool;
    multi_level_columns : bool }.

(** ** Effects: a log of calls and printed lines *)

Inductive event : Type :=
| Print (line : string)
| PrintFrame (df : DataFrame)
| YfDownload (t : ticker)
| FmpGet (t : ticker) (url : string).

Definition Run (A : Type) : Type := (A * list event)%type.

Definition ret {A} (a : A) : Run A := (a, []).

Definition bind {A B} (m : Run A) (f : A -> Run B) : Run B :=
  let (a, l1) := m in let (b, l2) := f a in (b, l1 ++ l2).

Definition emit (e : event) : Run unit := (tt, [e]).
Definition print (line : string) : Run unit := emit (Print line).

Notation "x <- m ;; k" := (bind m (fun x => k))
  (at level 61, m at next level, right associativity).
Notation "m ;;; k" := (bind m (fun _ => k))
  (at level 61, right associativity).

Definition result {A} (r : Run A) : A := fst r.
Definition log {A} (r : Run A) : list event := snd r.

(** ** The script *)

Section Script.

Context {L : Libraries}.
Variable w : World.

Definition str_tickers (col : list csv_value) : list ticker :=
  flat_map (fun v => match v with CsvStr s => [s] | _ => [] end) col.

(** Lines 9-17.  Only [FileNotFoundError] is handled; any other
    exception leaves the function. *)
Definition get_sp500_tickers (csv_file : string) : Run (exn + list ticker) :=
  match read_csv w csv_file with
  | inr sp500_df =>
      match csv_column "Symbol" sp500_df with
      | Some col => ret (inr (str_tickers col))
      | None => ret (inl (KeyError "Symbol"))
      end
  | inl e =>
      if is_FileNotFoundError e then
        print ("Error: The file " ++ csv_file ++ " was not found.") ;;;
        ret (inr [])
      else ret (inl e)
  end.

(** Whether the in-place replacement of line 31 reaches [stock_data],
    and that of line 59 [df]. *)
Definition yf_rewritten : bool :=
  negb (copy_on_write || multi_level_columns).

Definition fmp_rewritten : bool := negb copy_on_write.

(** Lines 26-34, the body of the [try]: [inl e] when it raises,
    [inr None] on the [else] branch, [inr (Some r)] when a series is
    stored. *)
Definition yf_try (t : ticker) (start end_ : string)
  : exn + option (Series cell) :=
  match yf_download w t start end_ with
  | inl e => inl e
  | inr stock_data =>
      if frame_empty stock_data then inr None
      else match stock_data with
           | FrameWithClose close =>
               inr (Some (stored_Return yf_rewritten close))
           | FrameWithoutClose _ => inl (KeyError "Close")
           end
  end.

(** Lines 22-37, the loop over [tickers] threading [all_stock_data]. *)
Fixpoint yf_loop (tickers : list ticker) (start end_ : string)
  (all_stock_data : dict (Series cell)) : Run (dict (Series cell)) :=
  match tickers with
  | [] => ret all_stock_data
  | t :: rest =>
      print ("Collecting data for " ++ t ++ " using yfinance...") ;;;
      emit (YfDownload t) ;;;
      d <- match yf_try t start end_ with
           | inr (Some r) => ret (dict_set t r all_stock_data)
           | inr None =>
               print ("No data found for " ++ t ++ " using yfinance.") ;;;
               ret all_stock_data
           | inl e =>
               print ("Error collecting data for " ++ t
                        ++ " using yfinance: " ++ exn_text e) ;;;
               ret all_stock_data
           end ;;
      yf_loop rest start end_ d
  end.

(** Lines 20-38. *)
Definition get_stock_data_yf (tickers : list ticker) (start end_ : string)
  : Run (dict (Series cell)) :=
  yf_loop tickers start end_ [].

Definition base_url : string :=
  "https://financialmodelingprep.com/api/v3/historical-price/".

Definition fmp_url (t : ticker) (api_key start end_ : string) : string :=
  (base_url ++ t ++ "?from=" ++ start ++ "&to=" ++ end_
     ++ "&apikey=" ++ api_key)%string.

(** [response.raise_for_status()] *)
Definition raise_for_status (r : http_response) : option exn :=
  if (400 <=? status_code r) && (status_code r <? 600)
  then Some (HTTPError (status_code r)) else None.

(** Lines 47-62, the body of the [try].  A [historical] list without
    records gives a frame without columns, on which [df['date']]
    raises. *)
Definition fmp_try (t : ticker) (api_key start end_ : string)
  : exn + option (Series cell) :=
  match requests_get w (fmp_url t api_key start end_) with
  | inl e => inl e
  | inr response =>
      match raise_for_status response with
      | Some e => inl e
      | None =>
          match text response with
          | NotJson => inl JSONDecodeError
          | NoHistorical => inr None
          | BadHistorical e => inl e
          | Historical [] => inl (KeyError "date")
          | Historical (r :: rs) =>
              inr (Some (stored_Return fmp_rewritten (sort_index (r :: rs))))
          end
      end
  end.

(** Lines 44-65. *)
Fixpoint fmp_loop (tickers : list ticker) (api_key start end_ : string)
  (all_stock_data : dict (Series cell)) : Run (dict (Series cell)) :=
  match tickers with
  | [] => ret all_stock_data
  | t :: rest =>
      print ("Collecting data for " ++ t ++ " using FMP...") ;;;
      emit (FmpGet t (fmp_url t api_key start end_)) ;;;
      d <- match fmp_try t api_key start end_ with
           | inr (Some r) => ret (dict_set t r all_stock_data)
           | inr None =>
               print ("No historical data found for " ++ t ++ " on FMP.") ;;;
               ret all_stock_data
           | inl e =>
               print ("Error collecting data for " ++ t
                        ++ " using FMP: " ++ exn_text e) ;;;
               ret all_stock_data
           end ;;
      fmp_loop rest api_key start end_ d
  end.

(** Lines 41-66. *)
Definition get_stock_data_fmp (tickers : list ticker)
  (api_key start end_ : string) : Run (dict (Series cell)) :=
  fmp_loop tickers api_key start end_ [].

Definition START_DATE : string := "2010-01-01".
Definition END_DATE : string := "2020-12-31".

(** Truth value of [FMP_API_KEY]: [None] and the empty string are
    false. *)
Definition usable_key (k : option string) : option string :=
  match k with
  | Some EmptyString | None => None
  | Some key => Some key
  end.

(** Line 88. *)
Definition failed_of (tickers : list ticker) (stock_returns : dict (Series cell))
  : list ticker :=
  filter (fun t => negb (dict_mem t stock_returns)) tickers.

(** Lines 85-94: the mapping [stock_returns] as it stands before the
    frame is built. *)
Definition collect_returns (tickers : list ticker) (FMP_API_KEY : option string)
  : Run (dict (Series cell)) :=
  stock_returns <- get_stock_data_yf tickers START_DATE END_DATE ;;
  let failed_tickers := failed_of tickers stock_returns in
  match failed_tickers, usable_key FMP_API_KEY with
  | _ :: _, Some key =>
      print "
Attempting to collect data for failed tickers using FMP..." ;;;
      fmp_returns <- get_stock_data_fmp failed_tickers key START_DATE END_DATE ;;
      ret (dict_update stock_returns fmp_returns)
  | _ :: _, None =>
      print "
No FMP API key provided. Cannot use FMP as a fallback." ;;;
      ret stock_returns
  | [], _ => ret stock_returns
  end.

End Script.

(** ** Building the frame: [pd.DataFrame(dict_of_series)] *)

Fixpoint lookup_date {A} (d : date) (s : Series A) : option A :=
  match s with
  | [] => None
  | (d', v) :: r => if d =? d' then Some v else lookup_date d r
  end.

(** The value a series gives to a date: its own, or NaN when the date is
    not in its index. *)
Definition value_on (s : Series cell) (d : date) : cell :=
  match lookup_date d s with
  | Some v => v
  | None => NaN
  end.

(** [Series.reindex(idx)]: the values as they are when the index already
    is [idx]; otherwise the series must have unique dates, and each date
    of [idx] takes the series' value or NaN. *)
Definition reindex (s : Series cell) (idx : list date) : exn + list cell :=
  if dates_eqb (dates s) idx then inr (values s)
  else if has_duplicates (dates s)
       then inl (ValueError "cannot reindex on an axis with duplicate labels")
       else inr (map (value_on s) idx).

Fixpoint homogenize (d : dict (Series cell)) (idx : list date)
  : exn + list (ticker * list cell) :=
  match d with
  | [] => inr []
  | (t, s) :: r =>
      match reindex s idx with
      | inl e => inl e
      | inr col =>
          match homogenize r idx with
          | inl e => inl e
          | inr cols => inr ((t, col) :: cols)
          end
      end
  end.

Definition DataFrame_of_dict (d : dict (Series cell)) : exn + DataFrame :=
  let idx := union_indexes (map (fun kv => dates (snd kv)) d) in
  match homogenize d idx with
  | inl e => inl e
  | inr cols => inr {| index := idx; columns := cols |}
  end.

(** [df.head()] *)
Definition head (df : DataFrame) : DataFrame :=
  {| index := firstn 5 (index df);
     columns := map (fun tc => (fst tc, firstn 5 (snd tc))) (columns df) |}.


(** ** [main] *)

Inductive outcome : Type :=
| Uncaught (e : exn)                 (* an exception left [main] *)
| EarlyExit                          (* the [return] of line 82 *)
| Finished (stock_returns : dict (Series cell)) (returns_df : DataFrame).

(** The default of [get_sp500_tickers]' parameter [csv_file]. *)
Definition default_csv_file : string := "sp500_companies.csv".

(** Lines 69-99. *)
Definition main {L : Libraries} (w : World) : Run outcome :=
  let FMP_API_KEY := getenv w "FMP_API_KEY" in
  r <- get_sp500_tickers w default_csv_file ;;
  match r with
  | inl e => ret (Uncaught e)
  | inr [] =>
      print "No tickers to process. Exiting." ;;;
      ret EarlyExit
  | inr (t :: ts) =>
      stock_returns <- collect_returns w (t :: ts) FMP_API_KEY ;;
      match DataFrame_of_dict stock_returns with
      | inl e => ret (Uncaught e)
      | inr returns_df =>
          print "
Final DataFrame of stock returns (first 5 rows):" ;;;
          emit (PrintFrame (head returns_df)) ;;;
          ret (Finished stock_returns returns_df)
      end
  end.

(** The series a [try] leaves in the mapping, if any. *)
Definition fetched (r : exn + option (Series cell)) : option (Series cell) :=
  match r with
  | inr (Some s) => Some s
  | _ => None
  end.

Definition yf_attempt {L : Libraries} (w : World) (start end_ : string)
  (t : ticker)
  : option (Series cell) :=
  fetched (yf_try w t start end_).

Definition fmp_attempt {L : Libraries} (w : World)
  (start end_ api_key : string) (t : ticker)
  : option (Series cell) :=
  fetched (fmp_try w t api_key start end_).

(** What either fetch loop does to its mapping, with printing and call
    logging stripped: each ticker in turn stores the series its attempt
    produced, if it produced one. *)
Fixpoint store_all (attempt : ticker -> option (Series cell))
  (tickers : list ticker) (d : dict (Series cell)) : dict (Series cell) :=
  match tickers with
  | [] => d
  | t :: rest =>
      store_all attempt rest
        (match attempt t with Some r => dict_set t r d | None => d end)
  end.

Definition is_call (e : event) : bool :=
  match e with
  | YfDownload _ | FmpGet _ _ => true
  | _ => false
  end.

(** The two mappings of a run of lines 85-94: what yfinance produced,
    and what FMP produced for the tickers yfinance left out. *)
Definition primary_mapping {L : Libraries} (w : World)
  (tickers : list ticker)
  : dict (Series cell) :=
  result (get_stock_data_yf w tickers START_DATE END_DATE).

Definition secondary_mapping {L : Libraries} (w : World)
  (tickers : list ticker) (key : string)
  : dict (Series cell) :=
  result (get_stock_data_fmp w (failed_of tickers (primary_mapping w tickers))
            key START_DATE END_DATE).

(** ** Sample worlds *)

Module Sample.

Definition csv_AB : csv_table :=
  [("Symbol"%string, [CsvStr "A"; CsvNaN; CsvStr "B"; CsvStr "A"]);
   ("Name"%string, [CsvStr "Alpha"; CsvStr "none"; CsvStr "Beta"; CsvStr "Alpha"])].

Definition ok (p : payload) : exn + http_response :=
  inr {| status_code := 200; text := p |}.

(** A text for each exception, for the sample libraries; what is proved
    holds for any choice of text. *)
Definition text_of (e : exn) : string :=
  match e with
  | FileNotFoundError => "[Errno 2] No such file or directory"
  | KeyError k => "'" ++ k ++ "'"
  | ValueError m => m
  | HTTPError _ => "Client Error"
  | JSONDecodeError => "Expecting value: line 1 column 1 (char 0)"
  | OtherException m => m
  end.

(** yfinance serves A with prices 10, 11 and raises for every other
    ticker; FMP serves two records, newest first. *)
Definition world (csv : exn + csv_table) (key : option string)
  (fmp : payload) : World :=
  {| read_csv := fun _ => csv;
     getenv := fun _ => key;
     yf_download := fun t _ _ =>
       if String.eqb t "A" then inr (FrameWithClose [(1, 10#1); (2, 11#1)])
       else inl (OtherException "no data");
     requests_get := fun _ => ok fmp |}.

(** Current libraries: pandas with copy-on-write, yfinance frames with
    MultiIndex columns. *)
#[global] Instance libraries : Libraries :=
  {| exn_text := text_of;
     copy_on_write := true;
     multi_level_columns := true |}.

Definition fmp_B : payload := Historical [(3, 19#1); (2, 20#1)].
Definition fmp_repeated : payload := Historical [(2, 10#1); (3, 10#1); (2, 10#1)].

Definition w_ok : World := world (inr csv_AB) (Some "k"%string) fmp_B.
Definition w_nokey : World := world (inr csv_AB) None fmp_B.
Definition w_emptykey : World := world (inr csv_AB) (Some ""%string) fmp_B.
Definition w_missing : World := world (inl FileNotFoundError) (Some "k"%string) fmp_B.
Definition w_nosymbol : World :=
  world (inr [("Ticker"%string, [CsvStr "A"])]) (Some "k"%string) fmp_B.
Definition w_repeated : World := world (inr csv_AB) (Some "k"%string) fmp_repeated.

End Sample.

(** ** Auxiliary notions for the further properties *)

(** The tickers an attempt leaves without a series. *)
Definition stores_nothing (attempt : ticker -> option (Series cell))
  (t : ticker) : bool :=
  match attempt t with
  | Some _ => false
  | None => true
  end.

Definition stores_something (attempt : ticker -> option (Series cell))
  (t : ticker) : bool :=
  negb (stores_nothing attempt t).

(** Keys in order of first appearance. *)
Definition append_new (seen : list ticker) (t : ticker) : list ticker :=
  if existsb (String.eqb t) seen then seen else seen ++ [t].

Definition first_occurrences (ts : list ticker) : list ticker :=
  fold_left append_new ts [].

Module Sample2.

(** The ticker list cannot be parsed. *)
Definition w_unparsable : World :=
  Sample.world (inl (OtherException "Error tokenizing data"))
    (Some "k"%string) Sample.fmp_B.

(** FMP answers 404 with an otherwise usable body. *)
Definition w_404 : World :=
  {| read_csv := fun _ => inr Sample.csv_AB;
     getenv := fun _ => Some "k"%string;
     yf_download := fun _ _ _ => inl (OtherException "no data");
     requests_get := fun _ =>
       inr {| status_code := 404; text := Sample.fmp_B |} |}.

(** Nothing is available anywhere. *)
Definition w_nothing : World :=
  {| read_csv := fun _ => inr Sample.csv_AB;
     getenv := fun _ => Some "k"%string;
     yf_download := fun _ _ _ => inr (FrameWithClose []);
     requests_get := fun _ => Sample.ok NoHistorical |}.

(** yfinance has a single row for every ticker. *)
Definition w_one_row : World :=
  {| read_csv := fun _ => inr Sample.csv_AB;
     getenv := fun _ => Some "k"%string;
     yf_download := fun _ _ _ => inr (FrameWithClose [(7, 3#1)]);
     requests_get := fun _ => Sample.ok Sample.fmp_B |}.

(** FMP delivers the records of [Sample.fmp_B] oldest first. *)
Definition w_oldest_first : World :=
  Sample.world (inr Sample.csv_AB) None (Historical [(2, 20#1); (3, 19#1)]).

(** FMP delivers the rows that yfinance has for A. *)
Definition w_fmp_A : World :=
  Sample.world (inr Sample.csv_AB) None (Historical [(1, 10#1); (2, 11#1)]).

(** yfinance delivers prices 7, 0, 5 for every ticker. *)
Definition w_yf_zero : World :=
  {| read_csv := fun _ => inr Sample.csv_AB;
     getenv := fun _ => None;
     yf_download := fun _ _ _ =>
       inr (FrameWithClose [(1, 7#1); (2, 0#1); (3, 5#1)]);
     requests_get := fun _ => Sample.ok NoHistorical |}.


End Sample2.

Example run_ok : result (main Sample.w_ok) =
  Finished
    [("A"%string, [(1, NaN); (2, Fin (1#10))]);
     ("B"%string, [(2, NaN); (3, Fin (-1#20))])]
    {| index := [1; 2; 3];
       columns := [("A"%string, [NaN; Fin (1#10); NaN]);
                   ("B"%string, [NaN; NaN; Fin (-1#20)])] |}.
Proof. vm_compute. reflexivity. Qed.

Example run_nokey : result (main Sample.w_nokey) =
  Finished
    [("A"%string, [(1, NaN); (2, Fin (1#10))])]
    {| index := [1; 2];
       columns := [("A"%string, [NaN; Fin (1#10)])] |}.
Proof. vm_compute. reflexivity. Qed.

Example run_missing : result (main Sample.w_missing) = EarlyExit.
Proof. vm_compute. reflexivity. Qed.

Example run_nosymbol : result (main Sample.w_nosymbol) = Uncaught (KeyError "Symbol").
Proof. vm_compute. reflexivity. Qed.

Example run_repeated : result (main Sample.w_repeated) =
  Uncaught (ValueError "cannot reindex on an axis with duplicate labels").
Proof. vm_compute. reflexivity. Qed.

(** * Properties *)

(** ** The dict operations *)

Section DictFacts.

Context {V : Type}.
Implicit Types (d o : dict V) (k : ticker) (v : V).

Lemma dict_get_set_same d k v : dict_get k (dict_set k v d) = Some v.
Proof.
  induction d as [|[k' v'] r IH]; simpl.
  - now rewrite String.eqb_refl.
  - destruct (String.eqb k k') eqn:E; simpl; rewrite ?String.eqb_refl, ?E; auto.
Qed.

Lemma dict_get_set_other d k k' v :
  k <> k' -> dict_get k (dict_set k' v d) = dict_get k d.
Proof.
  intros Hne. induction d as [|[k0 v0] r IH]; simpl.
  - apply String.eqb_neq in Hne. now rewrite Hne.
  - destruct (String.eqb k' k0) eqn:E; simpl.
    + apply String.eqb_eq in E. subst k0.
      apply String.eqb_neq in Hne. now rewrite Hne.
    + now rewrite IH.
Qed.

Lemma keys_dict_set d k v x :
  In x (keys (dict_set k v d)) <-> x = k \/ In x (keys d).
Proof.
  induction d as [|[k' v'] r IH]; simpl.
  - intuition.
  - destruct (String.eqb k k') eqn:E; simpl.
    + apply String.eqb_eq in E. subst. intuition.
    + rewrite IH. intuition.
Qed.

Lemma NoDup_dict_set d k v : NoDup (keys d) -> NoDup (keys (dict_set k v d)).
Proof.
  induction d as [|[k' v'] r IH]; simpl; intros H.
  - constructor; [intros [] | constructor].
  - inversion H as [|? ? Hnin Hr]; subst.
    destruct (String.eqb k k') eqn:E; simpl.
    + apply String.eqb_eq in E. subst. now constructor.
    + constructor; [|now apply IH].
      rewrite keys_dict_set. intros [->|Hin]; [|contradiction].
      now rewrite String.eqb_refl in E.
Qed.

Lemma dict_get_None d k : dict_get k d = None <-> ~ In k (keys d).
Proof.
  induction d as [|[k' v'] r IH]; simpl.
  - intuition.
  - destruct (String.eqb k k') eqn:E.
    + apply String.eqb_eq in E. subst. split; [discriminate | intuition].
    + apply String.eqb_neq in E. rewrite IH. intuition congruence.
Qed.

Lemma dict_get_In d k v : dict_get k d = Some v -> In (k, v) d.
Proof.
  induction d as [|[k' v'] r IH]; simpl; [discriminate|].
  destruct (String.eqb k k') eqn:E; intros H.
  - apply String.eqb_eq in E. left. congruence.
  - right. auto.
Qed.

Lemma In_dict_get d k v : NoDup (keys d) -> In (k, v) d -> dict_get k d = Some v.
Proof.
  induction d as [|[k' v'] r IH]; simpl; intros Hnd Hin; [contradiction|].
  inversion Hnd as [|? ? Hnin Hr]; subst.
  destruct Hin as [Heq|Hin].
  - inversion Heq; subst. now rewrite String.eqb_refl.
  - destruct (String.eqb k k') eqn:E; [|auto].
    apply String.eqb_eq in E. subst. exfalso. apply Hnin.
    change k' with (fst (k', v)). now apply in_map.
Qed.

Lemma dict_mem_keys d k : dict_mem k d = true <-> In k (keys d).
Proof.
  unfold dict_mem. destruct (dict_get k d) eqn:E.
  - split; [intros _|reflexivity].
    apply dict_get_In in E. change k with (fst (k, v)). now apply in_map.
  - apply dict_get_None in E. split; [discriminate | contradiction].
Qed.

Lemma dict_get_update_absent d o k :
  dict_get k o = None -> dict_get k (dict_update d o) = dict_get k d.
Proof.
  unfold dict_update. revert d.
  induction o as [|[k' v'] r IH]; intros d; simpl; [reflexivity|].
  destruct (String.eqb k k') eqn:E; [discriminate|]. intros H.
  rewrite IH by assumption.
  apply String.eqb_neq in E. now apply dict_get_set_other.
Qed.

Lemma dict_get_update_present d o k v :
  NoDup (keys o) -> dict_get k o = Some v ->
  dict_get k (dict_update d o) = Some v.
Proof.
  unfold dict_update. revert d.
  induction o as [|[k' v'] r IH]; intros d Hnd; simpl; [discriminate|].
  inversion Hnd as [|? ? Hnin Hr]; subst.
  destruct (String.eqb k k') eqn:E; intros H.
  - apply String.eqb_eq in E. subst k'. inversion H; subst.
    apply dict_get_None in Hnin.
    change (dict_get k (dict_update (dict_set k v d) r) = Some v).
    rewrite dict_get_update_absent by assumption. apply dict_get_set_same.
  - now apply IH.
Qed.

Lemma keys_dict_update d o x :
  In x (keys (dict_update d o)) <-> In x (keys d) \/ In x (keys o).
Proof.
  unfold dict_update. revert d.
  induction o as [|[k' v'] r IH]; intros d; simpl; [intuition|].
  rewrite IH, keys_dict_set. intuition.
Qed.

Lemma NoDup_dict_update d o : NoDup (keys d) -> NoDup (keys (dict_update d o)).
Proof.
  unfold dict_update. revert d.
  induction o as [|[k' v'] r IH]; intros d H; simpl; [assumption|].
  apply IH. now apply NoDup_dict_set.
Qed.

End DictFacts.

(** ** The two fetch loops *)

Lemma result_bind {A B} (m : Run A) (f : A -> Run B) :
  result (bind m f) = result (f (result m)).
Proof. destruct m as [a l]. unfold bind, result. simpl. now destruct (f a). Qed.

Lemma log_bind {A B} (m : Run A) (f : A -> Run B) :
  log (bind m f) = log m ++ log (f (result m)).
Proof. destruct m as [a l]. unfold bind, log, result. simpl. now destruct (f a). Qed.

Lemma result_ret {A} (a : A) : result (ret a) = a.
Proof. reflexivity. Qed.

Lemma log_ret {A} (a : A) : log (ret a) = [].
Proof. reflexivity. Qed.

Lemma log_emit e : log (emit e) = [e].
Proof. reflexivity. Qed.

Lemma log_print s : log (print s) = [Print s].
Proof. reflexivity. Qed.

#[global] Opaque bind ret emit print.

Create Rewrite HintDb run.

#[global] Hint Rewrite @result_bind @log_bind @result_ret @log_ret
  log_emit log_print : run.

Ltac run_simpl := autorewrite with run; cbn [app filter is_call].

Section Loops.

Context {L : Libraries}.
Variable w : World.
Variables start end_ : string.

Lemma yf_loop_result ts d :
  result (yf_loop w ts start end_ d) = store_all (yf_attempt w start end_) ts d.
Proof.
  revert d. induction ts as [|t rest IH]; intros d; [reflexivity|].
  cbn [yf_loop store_all]. run_simpl. unfold yf_attempt.
  destruct (yf_try w t start end_) as [e|[r|]]; run_simpl; apply IH.
Qed.

Lemma fmp_loop_result k ts d :
  result (fmp_loop w ts k start end_ d) = store_all (fmp_attempt w start end_ k) ts d.
Proof.
  revert d. induction ts as [|t rest IH]; intros d; [reflexivity|].
  cbn [fmp_loop store_all]. run_simpl. unfold fmp_attempt.
  destruct (fmp_try w t k start end_) as [e|[r|]]; run_simpl; apply IH.
Qed.

Lemma yf_loop_calls ts d :
  filter is_call (log (yf_loop w ts start end_ d)) = map YfDownload ts.
Proof.
  revert d. induction ts as [|t rest IH]; intros d; [reflexivity|].
  cbn [yf_loop map]. run_simpl. f_equal.
  rewrite filter_app.
  destruct (yf_try w t start end_) as [e|[r|]]; run_simpl; apply IH.
Qed.

Lemma fmp_loop_calls k ts d :
  filter is_call (log (fmp_loop w ts k start end_ d)) =
  map (fun t => FmpGet t (fmp_url t k start end_)) ts.
Proof.
  revert d. induction ts as [|t rest IH]; intros d; [reflexivity|].
  cbn [fmp_loop map]. run_simpl. f_equal.
  rewrite filter_app.
  destruct (fmp_try w t k start end_) as [e|[r|]]; run_simpl; apply IH.
Qed.

End Loops.

Section StoreAll.

Variable attempt : ticker -> option (Series cell).

Lemma store_all_get ts : forall d k,
  dict_get k (store_all attempt ts d) =
  if in_dec string_dec k ts then
    match attempt k with Some r => Some r | None => dict_get k d end
  else dict_get k d.
Proof.
  induction ts as [|t rest IH]; intros d k; [reflexivity|].
  simpl store_all. rewrite IH.
  destruct (in_dec string_dec k rest) as [Hin|Hnin];
    destruct (in_dec string_dec k (t :: rest)) as [Hin'|Hnin'];
    try (exfalso; apply Hnin'; now right).
  - destruct (attempt k) eqn:Ek; [reflexivity|].
    destruct (attempt t) eqn:Et; [|reflexivity].
    apply dict_get_set_other. congruence.
  - destruct Hin' as [->|]; [|contradiction].
    destruct (attempt k) eqn:Ek; [apply dict_get_set_same | reflexivity].
  - destruct (attempt t); [|reflexivity].
    apply dict_get_set_other. intros ->. apply Hnin'. now left.
Qed.

Lemma store_all_NoDup ts : forall d,
  NoDup (keys d) -> NoDup (keys (store_all attempt ts d)).
Proof.
  induction ts as [|t rest IH]; intros d H; [assumption|].
  simpl. apply IH. destruct (attempt t); [now apply NoDup_dict_set | assumption].
Qed.

Lemma store_all_keys ts : forall d k,
  In k (keys (store_all attempt ts d)) -> In k ts \/ In k (keys d).
Proof.
  induction ts as [|t rest IH]; intros d k H; [now right|].
  simpl in H. apply IH in H. destruct H as [H|H]; [left; now right|].
  destruct (attempt t); [|now right].
  apply keys_dict_set in H. destruct H as [->|H]; [left; now left | now right].
Qed.

Lemma store_all_empty_get ts k :
  dict_get k (store_all attempt ts []) =
  if in_dec string_dec k ts then attempt k else None.
Proof.
  rewrite store_all_get. simpl.
  destruct (in_dec string_dec k ts); [|reflexivity].
  now destruct (attempt k).
Qed.

End StoreAll.

(** ** Return computation *)

Lemma Qzero_spec q : Qzero q = true <-> q == 0.
Proof.
  unfold Qzero, Qeq. simpl. rewrite Z.eqb_eq, Z.mul_1_r. reflexivity.
Qed.

Lemma change_nonzero p0 p1 :
  ~ p0 == 0 -> exists q, change p0 p1 = Fin q /\ q == p1 / p0 - 1.
Proof.
  intros Hnz. unfold change, div, sub, one.
  destruct (Qzero p0) eqn:E; [apply Qzero_spec in E; contradiction|].
  eexists. split; [reflexivity|].
  rewrite Qred_correct. apply Qplus_comp; [apply Qred_correct | reflexivity].
Qed.

Lemma change_zero p0 p1 : p0 == 0 -> replace_inf_cell (change p0 p1) = NaN.
Proof.
  intros Hz. apply Qzero_spec in Hz. unfold change, div. rewrite Hz.
  destruct (Qzero p1); [reflexivity|]. now destruct (Qpositive p1).
Qed.

Lemma replace_inf_cell_finite c : is_inf (replace_inf_cell c) = false.
Proof. now destruct c. Qed.

Lemma replace_inf_no_inf s d v : In (d, v) (replace_inf s) -> is_inf v = false.
Proof.
  unfold replace_inf. rewrite in_map_iff. intros [[d' c] [Heq _]].
  inversion Heq; subst. apply replace_inf_cell_finite.
Qed.

Lemma dates_pct_change_from s : forall prev, dates (pct_change_from prev s) = dates s.
Proof.
  induction s as [|[d p] r IH]; intros prev; simpl; [reflexivity|].
  f_equal. apply IH.
Qed.

Lemma dates_pct_change s : dates (pct_change s) = dates s.
Proof.
  destruct s as [|[d p] r]; simpl; [reflexivity|].
  f_equal. apply dates_pct_change_from.
Qed.

Lemma dates_replace_inf s : dates (replace_inf s) = dates s.
Proof. unfold replace_inf, dates. rewrite map_map. reflexivity. Qed.

Lemma dates_Return close : dates (Return close) = dates close.
Proof. unfold Return. now rewrite dates_replace_inf, dates_pct_change. Qed.

Lemma pct_change_from_nth s : forall dp prev i d0 p0 d1 p1,
  nth_error ((dp, prev) :: s) i = Some (d0, p0) ->
  nth_error s i = Some (d1, p1) ->
  nth_error (pct_change_from prev s) i = Some (d1, change p0 p1).
Proof.
  induction s as [|[d p] r IH]; intros dp prev i d0 p0 d1 p1 H0 H1.
  - destruct i; discriminate.
  - destruct i as [|j]; simpl in *.
    + inversion H0; inversion H1; subst. reflexivity.
    + eapply IH; eassumption.
Qed.

Lemma pct_change_nth close i d0 p0 d1 p1 :
  nth_error close i = Some (d0, p0) ->
  nth_error close (S i) = Some (d1, p1) ->
  nth_error (pct_change close) (S i) = Some (d1, change p0 p1).
Proof.
  destruct close as [|[d p] rest]; [destruct i; discriminate|].
  intros H0 H1. simpl in H1 |- *. eapply pct_change_from_nth; eassumption.
Qed.

Lemma replace_inf_nth s i d c :
  nth_error s i = Some (d, c) ->
  nth_error (replace_inf s) i = Some (d, replace_inf_cell c).
Proof.
  intros H. unfold replace_inf. rewrite nth_error_map, H. reflexivity.
Qed.

(** ** Sorting *)

Section SortFacts.

Context {A : Type} (key : A -> Z).

Lemma insert_by_perm x l : Permutation (insert_by key x l) (x :: l).
Proof.
  induction l as [|y r IH]; simpl; [reflexivity|].
  destruct (key x <=? key y); [reflexivity|].
  rewrite IH. apply perm_swap.
Qed.

Lemma sort_by_perm l : Permutation (sort_by key l) l.
Proof.
  induction l as [|x r IH]; simpl; [reflexivity|].
  rewrite insert_by_perm. now constructor.
Qed.

Lemma insert_by_sorted x l :
  StronglySorted (key_le key) l -> StronglySorted (key_le key) (insert_by key x l).
Proof.
  induction 1 as [|y r Hr IH Hy]; simpl.
  - repeat constructor.
  - destruct (key x <=? key y) eqn:E.
    + apply Z.leb_le in E. constructor; [now constructor|].
      constructor; [exact E|].
      eapply Forall_impl; [|exact Hy]. unfold key_le. intros; lia.
    + apply Z.leb_gt in E. constructor; [exact IH|].
      eapply Permutation_Forall; [symmetry; apply insert_by_perm|].
      constructor; [unfold key_le; lia | exact Hy].
Qed.

Lemma sort_by_sorted l : StronglySorted (key_le key) (sort_by key l).
Proof.
  induction l as [|x r IH]; simpl; [constructor|].
  now apply insert_by_sorted.
Qed.

Lemma insert_by_below x l :
  Forall (key_le key x) l -> insert_by key x l = x :: l.
Proof.
  destruct l as [|y r]; [reflexivity|]. intros H. simpl.
  inversion H as [|? ? Hxy _]; subst. unfold key_le in Hxy.
  apply Z.leb_le in Hxy. now rewrite Hxy.
Qed.

Lemma sort_by_sorted_id l : StronglySorted (key_le key) l -> sort_by key l = l.
Proof.
  induction 1 as [|x r Hr IH Hx]; simpl; [reflexivity|].
  rewrite IH. now apply insert_by_below.
Qed.

End SortFacts.

Lemma sorted_le_map {A} (key : A -> Z) l :
  StronglySorted (key_le key) l -> StronglySorted Z.le (map key l).
Proof.
  induction 1 as [|x r Hr IH Hx]; simpl; constructor; [assumption|].
  apply Forall_map. exact Hx.
Qed.

Lemma sorted_le_NoDup_lt l :
  StronglySorted Z.le l -> NoDup l -> StronglySorted Z.lt l.
Proof.
  induction 1 as [|x r Hr IH Hx]; intros Hnd; constructor;
    inversion Hnd as [|? ? Hnin Hnd']; subst; [now apply IH|].
  rewrite Forall_forall in *. intros y Hy.
  specialize (Hx y Hy). assert (x <> y) by (intros ->; contradiction). lia.
Qed.

Lemma sorted_lt_le l : StronglySorted Z.lt l -> StronglySorted Z.le l.
Proof.
  induction 1 as [|x r Hr IH Hx]; constructor; [assumption|].
  eapply Forall_impl; [|exact Hx]. intros; lia.
Qed.


Lemma sort_index_dates_perm {A} (s : Series A) :
  Permutation (dates (sort_index s)) (dates s).
Proof. unfold dates, sort_index. apply Permutation_map, sort_by_perm. Qed.

Lemma sort_index_dates_sorted {A} (s : Series A) :
  StronglySorted Z.le (dates (sort_index s)).
Proof. unfold dates, sort_index. apply sorted_le_map, sort_by_sorted. Qed.

Lemma sort_values_id i : StronglySorted Z.le i -> sort_values i = i.
Proof.
  intros H. unfold sort_values. apply sort_by_sorted_id.
  induction H as [|x r Hr IH Hx]; constructor; assumption.
Qed.

(** ** What an attempt stores *)

Lemma yf_attempt_Some {L : Libraries} w start end_ t r :
  yf_attempt w start end_ t = Some r <->
  exists close, yf_download w t start end_ = inr (FrameWithClose close)
                /\ close <> []
                /\ r = stored_Return yf_rewritten close.
Proof.
  unfold yf_attempt, yf_try. split.
  - destruct (yf_download w t start end_) as [e|[[|row close]|[|d idx]]];
      simpl; try discriminate.
    intros H. inversion H. exists (row :: close). repeat split. discriminate.
  - intros (close & -> & Hne & ->). destruct close; [contradiction|reflexivity].
Qed.

Lemma fmp_attempt_Some {L : Libraries} w start end_ k t r :
  fmp_attempt w start end_ k t = Some r <->
  exists resp recs,
    requests_get w (fmp_url t k start end_) = inr resp
    /\ raise_for_status resp = None
    /\ text resp = Historical recs /\ recs <> []
    /\ r = stored_Return fmp_rewritten (sort_index recs).
Proof.
  unfold fmp_attempt, fmp_try. split.
  - destruct (requests_get w _) as [e|resp]; [discriminate|].
    destruct (raise_for_status resp) eqn:Es; [discriminate|].
    destruct (text resp) as [| |e|[|rec recs]] eqn:Et; try discriminate.
    simpl. intros H. inversion H; subst. exists resp, (rec :: recs).
    split; [reflexivity|]. split; [assumption|]. split; [assumption|].
    split; [discriminate | reflexivity].
  - intros (resp & recs & -> & -> & -> & Hne & ->).
    destruct recs; [contradiction|reflexivity].
Qed.

(** ** Lines 85-94 *)

Section Collect.

Context {L : Libraries}.
Variable w : World.
Variable tickers : list ticker.
Variable FMP_API_KEY : option string.

Lemma primary_mapping_eq :
  primary_mapping w tickers = store_all (yf_attempt w START_DATE END_DATE) tickers [].
Proof. apply yf_loop_result. Qed.

Lemma secondary_mapping_eq key :
  secondary_mapping w tickers key =
  store_all (fmp_attempt w START_DATE END_DATE key)
    (failed_of tickers (primary_mapping w tickers)) [].
Proof. apply fmp_loop_result. Qed.

Lemma collect_returns_result :
  result (collect_returns w tickers FMP_API_KEY) =
  match failed_of tickers (primary_mapping w tickers), usable_key FMP_API_KEY with
  | _ :: _, Some key =>
      dict_update (primary_mapping w tickers) (secondary_mapping w tickers key)
  | _, _ => primary_mapping w tickers
  end.
Proof.
  unfold collect_returns, primary_mapping, secondary_mapping.
  autorewrite with run.
  destruct (failed_of tickers _) as [|f fs]; [reflexivity|].
  destruct (usable_key FMP_API_KEY); now autorewrite with run.
Qed.

Lemma collect_returns_calls :
  filter is_call (log (collect_returns w tickers FMP_API_KEY)) =
  map YfDownload tickers ++
  match usable_key FMP_API_KEY with
  | Some key =>
      map (fun t => FmpGet t (fmp_url t key START_DATE END_DATE))
        (failed_of tickers (primary_mapping w tickers))
  | None => []
  end.
Proof.
  unfold collect_returns, primary_mapping.
  autorewrite with run. rewrite filter_app. unfold get_stock_data_yf at 1.
  rewrite yf_loop_calls. f_equal.
  destruct (failed_of tickers _) as [|f fs] eqn:Ef.
  - autorewrite with run. now destruct (usable_key FMP_API_KEY).
  - destruct (usable_key FMP_API_KEY) as [key|]; autorewrite with run;
      [|reflexivity].
    cbn [app filter is_call]. rewrite app_nil_r.
    unfold get_stock_data_fmp. apply fmp_loop_calls.
Qed.

Lemma failed_of_spec t :
  In t (failed_of tickers (primary_mapping w tickers)) <->
  In t tickers /\ yf_attempt w START_DATE END_DATE t = None.
Proof.
  unfold failed_of. rewrite filter_In. unfold dict_mem.
  rewrite primary_mapping_eq, store_all_empty_get.
  split; intros [Hin H]; split; auto.
  - destruct (in_dec string_dec t tickers); [|contradiction].
    now destruct (yf_attempt w START_DATE END_DATE t).
  - destruct (in_dec string_dec t tickers); [|reflexivity]. now rewrite H.
Qed.

Lemma primary_get t :
  In t tickers ->
  dict_get t (primary_mapping w tickers) = yf_attempt w START_DATE END_DATE t.
Proof.
  intros Hin. rewrite primary_mapping_eq, store_all_empty_get.
  destruct (in_dec string_dec t tickers); [reflexivity|contradiction].
Qed.

Lemma primary_keys t : In t (keys (primary_mapping w tickers)) -> In t tickers.
Proof.
  rewrite primary_mapping_eq. intros H. apply store_all_keys in H.
  destruct H as [H|[]]. exact H.
Qed.

Lemma secondary_get key t :
  dict_get t (secondary_mapping w tickers key) =
  if in_dec string_dec t (failed_of tickers (primary_mapping w tickers))
  then fmp_attempt w START_DATE END_DATE key t else None.
Proof. rewrite secondary_mapping_eq. apply store_all_empty_get. Qed.

Lemma secondary_keys key t :
  In t (keys (secondary_mapping w tickers key)) ->
  In t tickers /\ yf_attempt w START_DATE END_DATE t = None.
Proof.
  rewrite secondary_mapping_eq. intros H. apply store_all_keys in H.
  destruct H as [H|[]]. now apply failed_of_spec.
Qed.

Lemma primary_NoDup : NoDup (keys (primary_mapping w tickers)).
Proof. rewrite primary_mapping_eq. apply store_all_NoDup. constructor. Qed.

Lemma secondary_NoDup key : NoDup (keys (secondary_mapping w tickers key)).
Proof. rewrite secondary_mapping_eq. apply store_all_NoDup. constructor. Qed.

Lemma collect_returns_NoDup :
  NoDup (keys (result (collect_returns w tickers FMP_API_KEY))).
Proof.
  rewrite collect_returns_result.
  destruct (failed_of tickers _); [apply primary_NoDup|].
  destruct (usable_key FMP_API_KEY); [|apply primary_NoDup].
  apply NoDup_dict_update, primary_NoDup.
Qed.

Lemma collect_returns_keys t :
  In t (keys (result (collect_returns w tickers FMP_API_KEY))) -> In t tickers.
Proof.
  rewrite collect_returns_result.
  destruct (failed_of tickers _); [apply primary_keys|].
  destruct (usable_key FMP_API_KEY) as [key|]; [|apply primary_keys].
  rewrite keys_dict_update. intros [H|H]; [now apply primary_keys|].
  now apply secondary_keys in H.
Qed.

(** The entry of a ticker of the list, by cases on the two attempts. *)
Lemma collect_returns_get t :
  In t tickers ->
  dict_get t (result (collect_returns w tickers FMP_API_KEY)) =
  match yf_attempt w START_DATE END_DATE t with
  | Some s => Some s
  | None =>
      match usable_key FMP_API_KEY with
      | Some key => fmp_attempt w START_DATE END_DATE key t
      | None => None
      end
  end.
Proof.
  intros Hin. rewrite collect_returns_result.
  pose proof (failed_of_spec t) as Hf.
  pose proof (primary_get t Hin) as Hp.
  destruct (failed_of tickers (primary_mapping w tickers)) as [|f fs] eqn:Ef.
  - rewrite Hp. destruct (yf_attempt w START_DATE END_DATE t) eqn:Ey; [reflexivity|].
    exfalso. now apply Hf.
  - destruct (usable_key FMP_API_KEY) as [key|].
    + pose proof (secondary_get key t) as Hs. rewrite Ef in Hs.
      destruct (dict_get t (secondary_mapping w tickers key)) as [s|] eqn:Es.
      * rewrite (dict_get_update_present _ _ _ s (secondary_NoDup key) Es).
        destruct (in_dec string_dec t (f :: fs)) as [Hi|]; [|discriminate].
        apply Hf in Hi. destruct Hi as [_ Hi]. now rewrite Hi.
      * rewrite dict_get_update_absent by assumption. rewrite Hp.
        destruct (yf_attempt w START_DATE END_DATE t) eqn:Ey; [reflexivity|].
        destruct (in_dec string_dec t (f :: fs)) as [|Hn]; [assumption|].
        exfalso. apply Hn, Hf. now split.
    + rewrite Hp. now destruct (yf_attempt w START_DATE END_DATE t).
Qed.

Lemma collect_returns_FmpGet t url :
  In (FmpGet t url) (log (collect_returns w tickers FMP_API_KEY)) <->
  exists key, usable_key FMP_API_KEY = Some key
              /\ url = fmp_url t key START_DATE END_DATE
              /\ In t tickers /\ yf_attempt w START_DATE END_DATE t = None.
Proof.
  transitivity (In (FmpGet t url)
                  (filter is_call (log (collect_returns w tickers FMP_API_KEY)))).
  { rewrite filter_In. simpl. intuition. }
  rewrite collect_returns_calls, in_app_iff, in_map_iff. split.
  - intros [(x & Hx & _)|H]; [discriminate|].
    destruct (usable_key FMP_API_KEY) as [key|]; [|contradiction].
    apply in_map_iff in H. destruct H as (t' & Heq & Hin).
    inversion Heq; subst. apply failed_of_spec in Hin.
    exists key. intuition.
  - intros (key & -> & -> & Hin & Hy). right.
    apply in_map_iff. exists t. split; [reflexivity|].
    apply failed_of_spec. now split.
Qed.

End Collect.

(** ** Claims about the fetch loops and the fallback *)

(** C1.  For a ticker of the input list: when the yfinance attempt
    stores a series, the final mapping holds exactly that series and no
    FMP request is made for the ticker; when yfinance stores nothing, a
    key is configured and the FMP attempt stores a series, the final
    mapping holds the FMP series; the ticker is never a key of both
    providers' mappings, and the final mapping has one entry per key. *)
Theorem fallback_tie_break {L : Libraries} (w : World) (tickers : list ticker)
  (FMP_API_KEY : option string) (t : ticker) :
  In t tickers ->
  (forall s, yf_attempt w START_DATE END_DATE t = Some s ->
     dict_get t (result (collect_returns w tickers FMP_API_KEY)) = Some s
     /\ forall url, ~ In (FmpGet t url) (log (collect_returns w tickers FMP_API_KEY)))
  /\ (forall key s,
        yf_attempt w START_DATE END_DATE t = None ->
        usable_key FMP_API_KEY = Some key ->
        fmp_attempt w START_DATE END_DATE key t = Some s ->
        dict_get t (result (collect_returns w tickers FMP_API_KEY)) = Some s)
  /\ (forall key,
        ~ (In t (keys (primary_mapping w tickers))
           /\ In t (keys (secondary_mapping w tickers key))))
  /\ NoDup (keys (result (collect_returns w tickers FMP_API_KEY))).
Proof.
  intros Hin. repeat split.
  - rewrite collect_returns_get by assumption. now rewrite H.
  - intros url Hev. apply collect_returns_FmpGet in Hev.
    destruct Hev as (key & _ & _ & _ & Hnone). congruence.
  - intros key s Hy Hk Hf. rewrite collect_returns_get by assumption.
    now rewrite Hy, Hk.
  - intros key [Hp Hs]. apply secondary_keys in Hs. destruct Hs as [_ Hs].
    apply dict_mem_keys in Hp. unfold dict_mem in Hp.
    rewrite primary_get, Hs in Hp by assumption. discriminate.
  - apply collect_returns_NoDup.
Qed.

Lemma fallback_tie_break_witness :
  In "B"%string ["A"; "B"; "A"]%string
  /\ dict_get "B"%string
       (result (collect_returns Sample.w_ok ["A"; "B"; "A"]%string (Some "k"%string)))
     = Some [(2, NaN); (3, Fin (-1#20))].
Proof.
  split; [right; left; reflexivity|].
  refine (proj1 (proj2 (fallback_tie_break Sample.w_ok _ _ "B"%string _))
            "k"%string _ _ _ _).
  - right; left; reflexivity.
  - vm_compute; reflexivity.
  - vm_compute; reflexivity.
  - vm_compute; reflexivity.
Defined.

(** C4.  Whatever the services do for the other tickers, each loop
    attempts every ticker of its list and the entry it returns for a
    ticker is decided by that ticker's own attempt alone: the stored
    series when the attempt produced one, no entry when it raised or
    found nothing.  Changing the services' behaviour on other tickers
    leaves the entry unchanged. *)
Theorem fetch_failure_isolated {L : Libraries} (w w' : World) (tickers : list ticker)
  (key start end_ : string) (t : ticker) :
  In t tickers ->
  (dict_get t (result (get_stock_data_yf w tickers start end_))
     = fetched (yf_try w t start end_)
   /\ (forall e, yf_try w t start end_ = inl e ->
         dict_get t (result (get_stock_data_yf w tickers start end_)) = None)
   /\ In (YfDownload t) (log (get_stock_data_yf w tickers start end_))
   /\ (yf_download w' t start end_ = yf_download w t start end_ ->
       dict_get t (result (get_stock_data_yf w' tickers start end_))
       = dict_get t (result (get_stock_data_yf w tickers start end_))))
  /\ (dict_get t (result (get_stock_data_fmp w tickers key start end_))
        = fetched (fmp_try w t key start end_)
      /\ (forall e, fmp_try w t key start end_ = inl e ->
            dict_get t (result (get_stock_data_fmp w tickers key start end_)) = None)
      /\ In (FmpGet t (fmp_url t key start end_))
           (log (get_stock_data_fmp w tickers key start end_))
      /\ (requests_get w' (fmp_url t key start end_)
            = requests_get w (fmp_url t key start end_) ->
          dict_get t (result (get_stock_data_fmp w' tickers key start end_))
          = dict_get t (result (get_stock_data_fmp w tickers key start end_)))).
Proof.
  intros Hin.
  assert (Hy : forall v, dict_get t (result (get_stock_data_yf v tickers start end_))
                         = fetched (yf_try v t start end_)).
  { intros v. unfold get_stock_data_yf. rewrite yf_loop_result, store_all_empty_get.
    destruct (in_dec string_dec t tickers); [reflexivity|contradiction]. }
  assert (Hf : forall v, dict_get t (result (get_stock_data_fmp v tickers key start end_))
                         = fetched (fmp_try v t key start end_)).
  { intros v. unfold get_stock_data_fmp. rewrite fmp_loop_result, store_all_empty_get.
    destruct (in_dec string_dec t tickers); [reflexivity|contradiction]. }
  split; repeat split.
  - apply Hy.
  - intros e He. now rewrite Hy, He.
  - assert (H : In (YfDownload t)
                  (filter is_call (log (get_stock_data_yf w tickers start end_)))).
    { unfold get_stock_data_yf. rewrite yf_loop_calls. now apply in_map. }
    now apply filter_In in H.
  - intros Hsame. rewrite !Hy. unfold yf_try. now rewrite Hsame.
  - apply Hf.
  - intros e He. now rewrite Hf, He.
  - assert (H : In (FmpGet t (fmp_url t key start end_))
                  (filter is_call (log (get_stock_data_fmp w tickers key start end_)))).
    { unfold get_stock_data_fmp. rewrite fmp_loop_calls.
      apply in_map_iff. now exists t. }
    now apply filter_In in H.
  - intros Hsame. rewrite !Hf. unfold fmp_try. now rewrite Hsame.
Qed.

Lemma fetch_failure_isolated_witness :
  In "A"%string ["B"; "A"]%string
  /\ yf_try Sample.w_ok "B"%string START_DATE END_DATE
     = inl (OtherException "no data")
  /\ dict_get "A"%string
       (result (get_stock_data_yf Sample.w_ok ["B"; "A"]%string START_DATE END_DATE))
     = Some [(1, NaN); (2, Fin (1#10))].
Proof.
  split; [right; left; reflexivity|]. split; [reflexivity|].
  exact (proj1 (proj1 (fetch_failure_isolated Sample.w_ok Sample.w_ok
                         ["B"; "A"]%string "k"%string START_DATE END_DATE "A"%string
                         (or_intror (or_introl eq_refl))))).
Defined.

(** Without a usable key the fallback branch is not taken. *)
Lemma collect_returns_no_key {L : Libraries} (w : World) (tickers : list ticker)
  (FMP_API_KEY : option string) :
  usable_key FMP_API_KEY = None ->
  (forall t url, ~ In (FmpGet t url) (log (collect_returns w tickers FMP_API_KEY)))
  /\ result (collect_returns w tickers FMP_API_KEY) = primary_mapping w tickers
  /\ (forall t, yf_attempt w START_DATE END_DATE t = None ->
        dict_get t (result (collect_returns w tickers FMP_API_KEY)) = None).
Proof.
  intros Hu. repeat split.
  - intros t url Hev. apply collect_returns_FmpGet in Hev.
    destruct Hev as (key & Hk & _). congruence.
  - rewrite collect_returns_result, Hu. now destruct (failed_of _ _).
  - intros t Hy.
    destruct (in_dec string_dec t tickers) as [Hin|Hnin].
    + rewrite collect_returns_get by assumption. now rewrite Hy, Hu.
    + apply dict_get_None. intros Hk. apply Hnin.
      eapply collect_returns_keys, Hk.
Qed.

Lemma str_tickers_In col t : In t (str_tickers col) <-> In (CsvStr t) col.
Proof.
  unfold str_tickers. rewrite in_flat_map. split.
  - intros ([s| |q] & Hin & Ht); simpl in Ht; try contradiction.
    destruct Ht as [->|[]]. exact Hin.
  - intros Hin. exists (CsvStr t). split; [exact Hin | now left].
Qed.

(** C10.  The final mapping has at most one entry per ticker and its keys
    all come from the input list, also when the list repeats a ticker;
    the resolver keeps repetitions and drops only the values that are
    not strings. *)
Theorem result_keys_unique_subset {L : Libraries} (w : World) (tickers : list ticker)
  (FMP_API_KEY : option string) :
  NoDup (keys (result (collect_returns w tickers FMP_API_KEY)))
  /\ incl (keys (result (collect_returns w tickers FMP_API_KEY))) tickers
  /\ (forall col t, In t (str_tickers col) <-> In (CsvStr t) col)
  /\ result (get_sp500_tickers Sample.w_ok default_csv_file) = inr ["A"; "B"; "A"]%string
  /\ keys (result (collect_returns Sample.w_ok ["A"; "B"; "A"]%string (Some "k"%string)))
     = ["A"; "B"]%string.
Proof.
  split; [apply collect_returns_NoDup|].
  split; [intros t; apply collect_returns_keys|].
  split; [intros col t; apply str_tickers_In|].
  split; vm_compute; reflexivity.
Qed.

(** ** Claims about the return series *)

(** C2.  For a price sequence with at least one observation, the first
    return is NaN (so never zero), and for every later position the
    computed return is [price[i]/price[i-1] - 1]: as [pct_change] yields
    it in every case, and as the stored series holds it, a finite
    number, whenever the previous price is not zero.  Prices 100, 110,
    99 give NaN, 1/10, -1/10. *)
Theorem return_rule (close : Series price) :
  close <> [] ->
  (exists d, nth_error (pct_change close) 0 = Some (d, NaN)
             /\ nth_error (Return close) 0 = Some (d, NaN))
  /\ (forall i d0 p0 d1 p1,
        nth_error close i = Some (d0, p0) ->
        nth_error close (S i) = Some (d1, p1) ->
        nth_error (pct_change close) (S i)
          = Some (d1, sub (div (Fin p1) (Fin p0)) one)
        /\ (~ p0 == 0 ->
            exists q, nth_error (Return close) (S i) = Some (d1, Fin q)
                      /\ q == p1 / p0 - 1))
  /\ (forall d1 d2 d3,
        Return [(d1, 100#1); (d2, 110#1); (d3, 99#1)]
        = [(d1, NaN); (d2, Fin (1#10)); (d3, Fin (-1#10))]).
Proof.
  intros Hne. split; [|split].
  - destruct close as [|[d p] rest]; [contradiction|]. exists d. now split.
  - intros i d0 p0 d1 p1 H0 H1.
    pose proof (pct_change_nth _ _ _ _ _ _ H0 H1) as Hpc.
    split; [exact Hpc|]. intros Hnz.
    destruct (change_nonzero p0 p1 Hnz) as (q & Hq & Hval).
    exists q. split; [|exact Hval].
    unfold Return. rewrite (replace_inf_nth _ _ _ _ Hpc), Hq. reflexivity.
  - intros d1 d2 d3. reflexivity.
Qed.

Lemma return_rule_witness :
  [(1, 100#1); (2, 110#1); (3, 99#1)] <> []
  /\ exists q, nth_error (Return [(1, 100#1); (2, 110#1); (3, 99#1)]) 2
               = Some (3, Fin q) /\ q == (99#1) / (110#1) - 1.
Proof.
  split; [discriminate|].
  refine (proj2 (proj1 (proj2 (return_rule [(1, 100#1); (2, 110#1); (3, 99#1)] _))
                   1%nat 2 (110#1) 3 (99#1) eq_refl eq_refl) _);
    discriminate.
Defined.

Lemma change_zero_inf p0 p1 :
  p0 == 0 -> ~ p1 == 0 -> is_inf (change p0 p1) = true.
Proof.
  intros H0 H1. apply Qzero_spec in H0.
  assert (E1 : Qzero p1 = false).
  { destruct (Qzero p1) eqn:E; [|reflexivity].
    apply Qzero_spec in E. contradiction. }
  unfold change, div. rewrite H0, E1. now destruct (Qpositive p1).
Qed.

Lemma dates_stored_Return b close : dates (stored_Return b close) = dates close.
Proof. destruct b; [apply dates_Return | apply dates_pct_change]. Qed.

Lemma stored_Return_nonempty b close :
  close <> [] -> exists d rest, stored_Return b close = (d, NaN) :: rest.
Proof.
  destruct close as [|[d p] rest]; [contradiction|]. intros _.
  destruct b; eexists _, _; reflexivity.
Qed.

(** C6.  The script does not achieve it.  When the in-place replacement
    does not reach the frame (under copy-on-write, and for yfinance also
    on a frame with MultiIndex columns), the stored column is what
    [pct_change] produced: at a position whose previous price is zero
    and whose own price is not, the series found in the mapping returned
    by the fetch loop holds an infinity. *)
Theorem zero_price_stores_infinity {L : Libraries} (w : World)
  (tickers : list ticker) (key start end_ : string) (t : ticker)
  (close : Series price) (i : nat) (d0 d1 : date) (p0 p1 : price) :
  In t tickers ->
  nth_error close i = Some (d0, p0) ->
  nth_error close (S i) = Some (d1, p1) ->
  p0 == 0 -> ~ p1 == 0 ->
  (yf_rewritten = false ->
   yf_download w t start end_ = inr (FrameWithClose close) ->
   exists s v,
     dict_get t (result (get_stock_data_yf w tickers start end_)) = Some s
     /\ nth_error s (S i) = Some (d1, v) /\ is_inf v = true)
  /\ (fmp_rewritten = false ->
      forall resp recs,
        requests_get w (fmp_url t key start end_) = inr resp ->
        raise_for_status resp = None ->
        text resp = Historical recs ->
        sort_index recs = close ->
        exists s v,
          dict_get t (result (get_stock_data_fmp w tickers key start end_))
          = Some s
          /\ nth_error s (S i) = Some (d1, v) /\ is_inf v = true).
Proof.
  intros Hin H0 H1 Hz Hnz.
  assert (Hne : close <> []) by (intros ->; destruct i; discriminate).
  pose proof (pct_change_nth _ _ _ _ _ _ H0 H1) as Hpc.
  pose proof (change_zero_inf _ _ Hz Hnz) as Hinf.
  split.
  - intros Hflag Hd. exists (pct_change close), (change p0 p1).
    split; [|split; assumption].
    unfold get_stock_data_yf. rewrite yf_loop_result, store_all_empty_get.
    destruct (in_dec string_dec t tickers); [|contradiction].
    apply yf_attempt_Some. exists close. rewrite Hflag. auto.
  - intros Hflag resp recs Hr Hs Ht Hsort.
    exists (pct_change close), (change p0 p1).
    split; [|split; assumption].
    unfold get_stock_data_fmp. rewrite fmp_loop_result, store_all_empty_get.
    destruct (in_dec string_dec t tickers); [|contradiction].
    apply fmp_attempt_Some. exists resp, recs. rewrite Hflag, Hsort.
    repeat split; auto. intros ->. now apply Hne.
Qed.

Lemma zero_price_stores_infinity_witness :
  In "A"%string ["A"]%string
  /\ (0#1) == 0 /\ ~ (5#1) == 0
  /\ yf_download Sample2.w_yf_zero "A"%string START_DATE END_DATE
     = inr (FrameWithClose [(1, 7#1); (2, 0#1); (3, 5#1)])
  /\ dict_get "A"%string
       (result (get_stock_data_yf Sample2.w_yf_zero ["A"]%string
                  START_DATE END_DATE))
     = Some [(1, NaN); (2, Fin (-1#1)); (3, PInf)]
  /\ exists s v,
       dict_get "A"%string
         (result (get_stock_data_yf Sample2.w_yf_zero ["A"]%string
                    START_DATE END_DATE)) = Some s
       /\ nth_error s 2 = Some (3, v) /\ is_inf v = true.
Proof.
  assert (Hz : (0#1) == 0) by reflexivity.
  assert (Hnz : ~ (5#1) == 0) by discriminate.
  split; [left; reflexivity|]. split; [exact Hz|]. split; [exact Hnz|].
  split; [reflexivity|]. split; [vm_compute; reflexivity|].
  exact (proj1 (zero_price_stores_infinity Sample2.w_yf_zero ["A"]%string
                  "k"%string START_DATE END_DATE "A"%string
                  [(1, 7#1); (2, 0#1); (3, 5#1)] 1%nat 2 3 (0#1) (5#1)
                  (or_introl eq_refl) eq_refl eq_refl Hz Hnz)
           eq_refl eq_refl).
Defined.

(** Where a retained series comes from. *)
Lemma collect_returns_source {L : Libraries} (w : World) (tickers : list ticker)
  (FMP_API_KEY : option string) (t : ticker) (s : Series cell) :
  dict_get t (result (collect_returns w tickers FMP_API_KEY)) = Some s ->
  (exists close,
     yf_download w t START_DATE END_DATE = inr (FrameWithClose close)
     /\ s = stored_Return yf_rewritten close)
  \/ (exists key resp recs,
        usable_key FMP_API_KEY = Some key
        /\ requests_get w (fmp_url t key START_DATE END_DATE) = inr resp
        /\ text resp = Historical recs
        /\ s = stored_Return fmp_rewritten (sort_index recs)).
Proof.
  intros H.
  assert (Hin : In t tickers).
  { apply collect_returns_keys with (w := w) (FMP_API_KEY := FMP_API_KEY).
    apply dict_get_In in H. change t with (fst (t, s)). now apply in_map. }
  rewrite collect_returns_get in H by assumption.
  destruct (yf_attempt w START_DATE END_DATE t) as [r|] eqn:Ey.
  - inversion H; subst r. apply yf_attempt_Some in Ey.
    destruct Ey as (close & Hd & _ & ->). left. now exists close.
  - destruct (usable_key FMP_API_KEY) as [key|] eqn:Ek; [|discriminate].
    apply fmp_attempt_Some in H.
    destruct H as (resp & recs & Hr & _ & Ht & _ & ->).
    right. now exists key, resp, recs.
Qed.

(** C7, as the script has it.  A series retained in the final mapping
    either comes from yfinance, and then carries the dates of the
    delivered frame in the delivered order, or comes from FMP, and then
    its dates are the records' dates in ascending order: the same dates
    with the same repetitions, and strictly increasing when no date is
    repeated among the records. *)
Theorem retained_dates {L : Libraries} (w : World) (tickers : list ticker)
  (FMP_API_KEY : option string) (t : ticker) (s : Series cell) :
  dict_get t (result (collect_returns w tickers FMP_API_KEY)) = Some s ->
  (exists close,
     yf_download w t START_DATE END_DATE = inr (FrameWithClose close)
     /\ dates s = dates close)
  \/ (exists key resp recs,
        usable_key FMP_API_KEY = Some key
        /\ requests_get w (fmp_url t key START_DATE END_DATE) = inr resp
        /\ text resp = Historical recs
        /\ Permutation (dates s) (dates recs)
        /\ StronglySorted Z.le (dates s)
        /\ (NoDup (dates recs) -> StronglySorted Z.lt (dates s))).
Proof.
  intros H. apply collect_returns_source in H.
  destruct H as [(close & Hd & ->)|(key & resp & recs & Hk & Hr & Ht & ->)].
  - left. exists close. split; [exact Hd | apply dates_stored_Return].
  - right. exists key, resp, recs. rewrite dates_stored_Return.
    split; [exact Hk|]. split; [exact Hr|]. split; [exact Ht|].
    split; [apply sort_index_dates_perm|].
    split; [apply sort_index_dates_sorted|].
    intros Hnd. apply sorted_le_NoDup_lt; [apply sort_index_dates_sorted|].
    eapply Permutation_NoDup; [symmetry; apply sort_index_dates_perm | exact Hnd].
Qed.

Lemma retained_dates_witness :
  dict_get "B"%string
    (result (collect_returns Sample.w_ok ["A"; "B"]%string (Some "k"%string)))
  = Some [(2, NaN); (3, Fin (-1#20))]
  /\ ((exists close,
         yf_download Sample.w_ok "B"%string START_DATE END_DATE
           = inr (FrameWithClose close)
         /\ dates [(2, NaN); (3, Fin (-1#20))] = dates close)
      \/ (exists key resp recs,
            usable_key (Some "k"%string) = Some key
            /\ requests_get Sample.w_ok (fmp_url "B"%string key START_DATE END_DATE)
               = inr resp
            /\ text resp = Historical recs
            /\ Permutation (dates [(2, NaN); (3, Fin (-1#20))]) (dates recs)
            /\ StronglySorted Z.le (dates [(2, NaN); (3, Fin (-1#20))])
            /\ (NoDup (dates recs)
                -> StronglySorted Z.lt (dates [(2, NaN); (3, Fin (-1#20))])))).
Proof.
  split; [vm_compute; reflexivity|].
  apply (retained_dates Sample.w_ok ["A"; "B"]%string (Some "k"%string) "B"%string).
  vm_compute; reflexivity.
Defined.

(** C7 as stated fails: FMP records that repeat a date give a retained
    series whose dates are not strictly increasing. *)
Lemma retained_dates_may_repeat :
  dict_get "B"%string
    (result (collect_returns Sample.w_repeated ["A"; "B"]%string (Some "k"%string)))
  = Some [(2, NaN); (2, Fin (0#1)); (3, Fin (0#1))]
  /\ ~ StronglySorted Z.lt (dates [(2, NaN); (2, Fin (0#1)); (3, Fin (0#1))]).
Proof.
  split; [vm_compute; reflexivity|].
  intros H. inversion H as [|? ? _ Hall]; subst.
  inversion Hall as [|? ? Hlt _]; subst. lia.
Qed.

(** ** Index union and frame construction *)

Lemma dates_eqb_eq a : forall b, dates_eqb a b = true <-> a = b.
Proof.
  induction a as [|x a' IH]; intros [|y b']; simpl;
    try (split; [discriminate | discriminate]); [intuition|].
  rewrite andb_true_iff, Z.eqb_eq, IH. split.
  - intros [-> ->]. reflexivity.
  - intros H. inversion H. auto.
Qed.

Lemma mem_date_In d l : mem_date d l = true <-> In d l.
Proof.
  induction l as [|x r IH]; simpl; [intuition discriminate|].
  rewrite orb_true_iff, Z.eqb_eq, IH. intuition.
Qed.

Lemma has_duplicates_NoDup l : NoDup l -> has_duplicates l = false.
Proof.
  induction 1 as [|x r Hnin Hnd IH]; simpl; [reflexivity|].
  rewrite IH, orb_false_r.
  destruct (mem_date x r) eqn:E; [|reflexivity].
  apply mem_date_In in E. contradiction.
Qed.

Lemma merge_union_In a : forall b d,
  In d (merge_union a b) <-> In d a \/ In d b.
Proof.
  induction a as [|x a' IHa]; intros b d; [simpl; intuition|].
  induction b as [|y b' IHb]; [simpl; intuition|].
  simpl. destruct (x <? y) eqn:Exy; [|destruct (y <? x) eqn:Eyx].
  - simpl. rewrite IHa. simpl. intuition.
  - simpl. simpl in IHb. rewrite IHb. intuition.
  - simpl. rewrite IHa.
    apply Z.ltb_ge in Exy. apply Z.ltb_ge in Eyx.
    assert (x = y) by lia. subst. intuition.
Qed.


Lemma sort_values_In i d : In d (sort_values i) <-> In d i.
Proof.
  unfold sort_values. split; apply Permutation_in;
    [apply sort_by_perm | symmetry; apply sort_by_perm].
Qed.

Lemma index_union_In a b d : In d (index_union a b) <-> In d a \/ In d b.
Proof.
  unfold index_union. destruct b as [|y b']; [simpl; intuition|].
  destruct (dates_eqb a (y :: b')) eqn:E.
  - apply dates_eqb_eq in E. subst a. intuition.
  - destruct a as [|x a']; [simpl; intuition|].
    now rewrite merge_union_In, !sort_values_In.
Qed.

Lemma fold_index_union_In l : forall a d,
  In d (fold_left index_union l a) <-> In d a \/ exists i, In i l /\ In d i.
Proof.
  induction l as [|b r IH]; intros a d; simpl.
  - split; [auto|]. intros [H|(i & [] & _)]. exact H.
  - rewrite IH, index_union_In. split.
    + intros [[H|H]|(i & Hi & Hd)]; [now left | right; exists b; auto|].
      right. exists i. auto.
    + intros [H|(i & [->|Hi] & Hd)]; [now left; left | now left; right|].
      right. exists i. auto.
Qed.

Lemma union_indexes_In l d :
  In d (union_indexes l) <-> exists i, In i l /\ In d i.
Proof.
  destruct l as [|a r]; simpl.
  - split; [intros [] | intros (i & [] & _)].
  - rewrite fold_index_union_In. split.
    + intros [H|(i & Hi & Hd)]; [exists a; auto | exists i; auto].
    + intros (i & [->|Hi] & Hd); [now left | right; exists i; auto].
Qed.






Lemma value_on_present s d v :
  NoDup (dates s) -> In (d, v) s -> value_on s d = v.
Proof.
  unfold value_on. induction s as [|[d' v'] r IH]; simpl; intros Hnd Hin;
    [contradiction|].
  inversion Hnd as [|? ? Hnin Hr]; subst.
  destruct Hin as [Heq|Hin].
  - inversion Heq; subst. now rewrite Z.eqb_refl.
  - destruct (d =? d') eqn:E; [|auto].
    apply Z.eqb_eq in E. subst. exfalso. apply Hnin.
    change d' with (fst (d', v)). now apply in_map.
Qed.


Lemma values_as_value_on s :
  NoDup (dates s) -> map (value_on s) (dates s) = values s.
Proof.
  intros Hnd. unfold dates, values. rewrite map_map.
  apply map_ext_in. intros [d v] Hin. simpl. now apply value_on_present.
Qed.

Lemma reindex_unique s idx :
  NoDup (dates s) -> reindex s idx = inr (map (value_on s) idx).
Proof.
  intros Hnd. unfold reindex. destruct (dates_eqb (dates s) idx) eqn:E.
  - apply dates_eqb_eq in E. subst idx. now rewrite values_as_value_on.
  - now rewrite has_duplicates_NoDup.
Qed.

Lemma homogenize_unique d idx :
  (forall t s, In (t, s) d -> NoDup (dates s)) ->
  homogenize d idx = inr (map (fun kv => (fst kv, map (value_on (snd kv)) idx)) d).
Proof.
  induction d as [|[t s] r IH]; intros H; simpl; [reflexivity|].
  rewrite reindex_unique by (eapply H; now left).
  rewrite IH; [reflexivity|]. intros t' s' Hin. eapply H. right. exact Hin.
Qed.

Lemma DataFrame_of_dict_unique d :
  (forall t s, In (t, s) d -> NoDup (dates s)) ->
  DataFrame_of_dict d =
  inr {| index := union_indexes (map (fun kv => dates (snd kv)) d);
         columns := map (fun kv =>
                           (fst kv,
                            map (value_on (snd kv))
                              (union_indexes (map (fun kv => dates (snd kv)) d))))
                      d |}.
Proof.
  intros H. unfold DataFrame_of_dict. now rewrite homogenize_unique.
Qed.




(** ** Claim about the merge *)




(** ** Claims about the whole run *)

Lemma main_result {L : Libraries} (w : World) :
  result (main w) =
  match result (get_sp500_tickers w default_csv_file) with
  | inl e => Uncaught e
  | inr [] => EarlyExit
  | inr (t :: ts) =>
      match DataFrame_of_dict
              (result (collect_returns w (t :: ts) (getenv w "FMP_API_KEY"))) with
      | inl e => Uncaught e
      | inr returns_df =>
          Finished (result (collect_returns w (t :: ts) (getenv w "FMP_API_KEY")))
            returns_df
      end
  end.
Proof.
  unfold main. autorewrite with run.
  destruct (result (get_sp500_tickers w default_csv_file)) as [e|[|t ts]];
    autorewrite with run; try reflexivity.
  destruct (DataFrame_of_dict _); now autorewrite with run.
Qed.

Lemma get_sp500_tickers_missing (w : World) (csv_file : string) :
  read_csv w csv_file = inl FileNotFoundError ->
  get_sp500_tickers w csv_file
  = (print ("Error: The file " ++ csv_file ++ " was not found.") ;;;
     ret (inr [])).
Proof. unfold get_sp500_tickers. now intros ->. Qed.

Lemma get_sp500_tickers_column (w : World) (csv_file : string) df col :
  read_csv w csv_file = inr df -> csv_column "Symbol" df = Some col ->
  get_sp500_tickers w csv_file = ret (inr (str_tickers col)).
Proof. unfold get_sp500_tickers. now intros -> ->. Qed.

(** Every series of the final mapping has distinct dates when the
    services deliver none twice. *)
Lemma collect_returns_distinct_dates {L : Libraries} (w : World) (tickers : list ticker)
  (FMP_API_KEY : option string) :
  (forall t close,
     yf_download w t START_DATE END_DATE = inr (FrameWithClose close) ->
     NoDup (dates close)) ->
  (forall url resp recs,
     requests_get w url = inr resp -> text resp = Historical recs ->
     NoDup (dates recs)) ->
  forall t s, In (t, s) (result (collect_returns w tickers FMP_API_KEY)) ->
              NoDup (dates s).
Proof.
  intros Hyf Hfmp t s Hin.
  apply In_dict_get in Hin; [|apply collect_returns_NoDup].
  destruct (collect_returns_source _ _ _ _ _ Hin)
    as [(close & Hd & ->)|(key & resp & recs & _ & Hr & Ht & ->)];
    rewrite dates_stored_Return.
  - eapply Hyf, Hd.
  - eapply Permutation_NoDup; [symmetry; apply sort_index_dates_perm|].
    eapply Hfmp; eassumption.
Qed.

(** C5, as the script has it.  When the ticker-list file is missing, the
    resolver reports it and returns the empty list, and the run ends at
    the early return: nothing is raised, no provider is called, and no
    frame is built. *)
Theorem missing_file_early_exit {L : Libraries} (w : World) :
  read_csv w default_csv_file = inl FileNotFoundError ->
  result (get_sp500_tickers w default_csv_file) = inr []
  /\ result (main w) = EarlyExit
  /\ log (main w)
     = [Print "Error: The file sp500_companies.csv was not found.";
        Print "No tickers to process. Exiting."].
Proof.
  intros H. pose proof (get_sp500_tickers_missing w default_csv_file H) as Hg.
  split; [|split].
  - rewrite Hg. now autorewrite with run.
  - rewrite main_result, Hg. now autorewrite with run.
  - unfold main. rewrite Hg. now autorewrite with run.
Qed.

Lemma missing_file_early_exit_witness :
  read_csv Sample.w_missing default_csv_file = inl FileNotFoundError
  /\ result (main Sample.w_missing) = EarlyExit.
Proof.
  split; [reflexivity|].
  exact (proj1 (proj2 (missing_file_early_exit Sample.w_missing eq_refl))).
Defined.

(** C5 as stated fails: with the file missing the run builds no frame,
    empty or otherwise. *)
Lemma missing_file_builds_no_frame :
  read_csv Sample.w_missing default_csv_file = inl FileNotFoundError
  /\ result (main Sample.w_missing) = EarlyExit
  /\ forall stock_returns returns_df,
       result (main Sample.w_missing) <> Finished stock_returns returns_df.
Proof.
  split; [reflexivity|]. split; [vm_compute; reflexivity|].
  intros sr df H. vm_compute in H. discriminate.
Qed.

(** C9, as the script has it.  When the ticker-list file is missing, or
    is read and has a [Symbol] column, and no history delivered by a
    service repeats a date, no exception leaves the run, whatever else
    the services do: it ends at the early return or with the frame
    built. *)
Theorem run_terminates_normally {L : Libraries} (w : World) :
  (read_csv w default_csv_file = inl FileNotFoundError
   \/ exists df col, read_csv w default_csv_file = inr df
                     /\ csv_column "Symbol" df = Some col) ->
  (forall t close,
     yf_download w t START_DATE END_DATE = inr (FrameWithClose close) ->
     NoDup (dates close)) ->
  (forall url resp recs,
     requests_get w url = inr resp -> text resp = Historical recs ->
     NoDup (dates recs)) ->
  result (main w) = EarlyExit
  \/ exists stock_returns returns_df,
       result (main w) = Finished stock_returns returns_df.
Proof.
  intros Hcsv Hyf Hfmp. rewrite main_result.
  destruct Hcsv as [Hmiss|(df & col & Hread & Hcol)].
  - rewrite (get_sp500_tickers_missing _ _ Hmiss). autorewrite with run. now left.
  - rewrite (get_sp500_tickers_column _ _ _ _ Hread Hcol). autorewrite with run.
    destruct (str_tickers col) as [|t ts]; [now left|]. right.
    rewrite DataFrame_of_dict_unique
      by (apply collect_returns_distinct_dates; assumption).
    eauto.
Qed.

Lemma run_terminates_normally_witness :
  (read_csv Sample.w_ok default_csv_file = inl FileNotFoundError
   \/ exists df col, read_csv Sample.w_ok default_csv_file = inr df
                     /\ csv_column "Symbol" df = Some col)
  /\ (result (main Sample.w_ok) = EarlyExit
      \/ exists stock_returns returns_df,
           result (main Sample.w_ok) = Finished stock_returns returns_df).
Proof.
  assert (H : read_csv Sample.w_ok default_csv_file = inl FileNotFoundError
              \/ exists df col, read_csv Sample.w_ok default_csv_file = inr df
                                /\ csv_column "Symbol" df = Some col).
  { right. eexists _, _. split; reflexivity. }
  split; [exact H|].
  apply (run_terminates_normally Sample.w_ok H).
  - intros t close. simpl. destruct (String.eqb t "A"); [|discriminate].
    intros E. inversion E; subst. simpl.
    repeat constructor; simpl; intuition lia.
  - intros url resp recs E. inversion E; subst. simpl. intros E'.
    inversion E'; subst. simpl.
    repeat constructor; simpl; intuition lia.
Defined.

(** C9 as stated fails: a ticker-list file that is read but has no
    [Symbol] column makes [KeyError] leave the run. *)
Lemma malformed_list_is_fatal :
  read_csv Sample.w_nosymbol default_csv_file
  = inr [("Ticker"%string, [CsvStr "A"])]
  /\ result (main Sample.w_nosymbol) = Uncaught (KeyError "Symbol").
Proof. split; vm_compute; reflexivity. Qed.

Lemma homogenize_keys d idx cols : homogenize d idx = inr cols -> keys cols = keys d.
Proof.
  revert cols. induction d as [|[t s] r IH]; intros cols; simpl.
  - intros H. inversion H. reflexivity.
  - destruct (reindex s idx); [discriminate|].
    destruct (homogenize r idx); [discriminate|].
    intros H. inversion H. simpl. f_equal. now apply IH.
Qed.

Lemma DataFrame_of_dict_keys d df :
  DataFrame_of_dict d = inr df -> keys (columns df) = keys d.
Proof.
  unfold DataFrame_of_dict.
  destruct (homogenize d _) eqn:E; [discriminate|].
  intros H. inversion H. simpl. eapply homogenize_keys, E.
Qed.

Lemma get_sp500_tickers_no_call (w : World) (csv_file : string) :
  filter is_call (log (get_sp500_tickers w csv_file)) = [].
Proof.
  unfold get_sp500_tickers.
  destruct (read_csv w csv_file) as [e|df].
  - destruct (is_FileNotFoundError e); now autorewrite with run.
  - destruct (csv_column "Symbol" df); now autorewrite with run.
Qed.

Lemma main_FmpGet {L : Libraries} (w : World) t url :
  In (FmpGet t url) (log (main w)) ->
  exists tickers,
    In (FmpGet t url) (log (collect_returns w tickers (getenv w "FMP_API_KEY"))).
Proof.
  intros H.
  assert (Hc : In (FmpGet t url) (filter is_call (log (main w))))
    by (apply filter_In; auto).
  unfold main in Hc. autorewrite with run in Hc.
  rewrite filter_app, get_sp500_tickers_no_call in Hc. simpl in Hc.
  destruct (result (get_sp500_tickers w default_csv_file)) as [e|[|t0 ts]];
    autorewrite with run in Hc; try contradiction.
  exists (t0 :: ts). rewrite filter_app in Hc. apply in_app_or in Hc.
  destruct Hc as [Hc|Hc]; [now apply filter_In in Hc|].
  destruct (DataFrame_of_dict _); autorewrite with run in Hc; contradiction.
Qed.

(** C8.  When the environment variable is unset or empty, the run makes
    no FMP request for any ticker, and a ticker for which yfinance stored
    nothing has neither an entry in the final mapping nor a column in
    the frame. *)
Theorem no_key_no_fallback {L : Libraries} (w : World) :
  getenv w "FMP_API_KEY" = None \/ getenv w "FMP_API_KEY" = Some ""%string ->
  (forall t url, ~ In (FmpGet t url) (log (main w)))
  /\ (forall stock_returns returns_df,
        result (main w) = Finished stock_returns returns_df ->
        forall t, yf_attempt w START_DATE END_DATE t = None ->
                  dict_get t stock_returns = None
                  /\ dict_get t (columns returns_df) = None).
Proof.
  intros Hkey.
  assert (Hu : usable_key (getenv w "FMP_API_KEY") = None)
    by (destruct Hkey as [-> | ->]; reflexivity).
  split.
  - intros t url Hev. apply main_FmpGet in Hev. destruct Hev as (tickers & Hev).
    now apply (proj1 (collect_returns_no_key w tickers _ Hu)) in Hev.
  - intros sr df Hfin t Hy. rewrite main_result in Hfin.
    destruct (result (get_sp500_tickers w default_csv_file)) as [e|[|t0 ts]];
      try discriminate.
    destruct (DataFrame_of_dict _) as [e|df'] eqn:Edf; [discriminate|].
    inversion Hfin; subst.
    pose proof (proj2 (proj2 (collect_returns_no_key w (t0 :: ts) _ Hu)) t Hy) as Hn.
    split; [exact Hn|].
    apply dict_get_None. rewrite (DataFrame_of_dict_keys _ _ Edf).
    now apply dict_get_None.
Qed.

Lemma no_key_no_fallback_witness :
  (getenv Sample.w_emptykey "FMP_API_KEY" = None
   \/ getenv Sample.w_emptykey "FMP_API_KEY" = Some ""%string)
  /\ forall t url, ~ In (FmpGet t url) (log (main Sample.w_emptykey)).
Proof.
  split; [right; reflexivity|].
  exact (proj1 (no_key_no_fallback Sample.w_emptykey (or_intror eq_refl))).
Defined.

(** * Further properties of the script *)

(** ** The ticker list *)

(** X1.  An exception of [read_csv] other than [FileNotFoundError] is not
    handled by [get_sp500_tickers]: it leaves [main] as it is, before
    anything is printed and before any provider is called. *)
Theorem unreadable_list_propagates {L : Libraries} (w : World) (e : exn) :
  read_csv w default_csv_file = inl e ->
  e <> FileNotFoundError ->
  result (get_sp500_tickers w default_csv_file) = inl e
  /\ result (main w) = Uncaught e
  /\ log (main w) = [].
Proof.
  intros Hread Hne.
  assert (Hg : get_sp500_tickers w default_csv_file = ret (inl e)).
  { unfold get_sp500_tickers. rewrite Hread.
    destruct e; try reflexivity. contradiction. }
  split; [|split].
  - now rewrite Hg.
  - now rewrite main_result, Hg.
  - unfold main. rewrite Hg. now autorewrite with run.
Qed.

Lemma unreadable_list_propagates_witness :
  read_csv Sample2.w_unparsable default_csv_file
  = inl (OtherException "Error tokenizing data")
  /\ OtherException "Error tokenizing data" <> FileNotFoundError
  /\ result (main Sample2.w_unparsable)
     = Uncaught (OtherException "Error tokenizing data").
Proof.
  split; [reflexivity|]. split; [discriminate|].
  refine (proj1 (proj2 (unreadable_list_propagates Sample2.w_unparsable _ eq_refl _))).
  discriminate.
Defined.

(** ** The order of the provider calls *)

Lemma failed_of_filter {L : Libraries} (w : World) (tickers : list ticker) :
  failed_of tickers (primary_mapping w tickers)
  = filter (stores_nothing (yf_attempt w START_DATE END_DATE)) tickers.
Proof.
  unfold failed_of. apply filter_ext_in. intros t Hin.
  unfold dict_mem, stores_nothing. rewrite primary_get by assumption.
  now destruct (yf_attempt w START_DATE END_DATE t).
Qed.

(** X2.  With a ticker list that is read, the run calls yfinance once for
    every entry of the list, in list order and repetitions included, and
    only then, if a key is usable, FMP once for every entry that
    yfinance left without a series, again in list order, each request
    carrying the key and the fixed date range. *)
Theorem provider_call_sequence {L : Libraries} (w : World) (df : csv_table)
  (col : list csv_value) :
  read_csv w default_csv_file = inr df ->
  csv_column "Symbol" df = Some col ->
  filter is_call (log (main w))
  = map YfDownload (str_tickers col)
    ++ match usable_key (getenv w "FMP_API_KEY") with
       | Some key =>
           map (fun t => FmpGet t (fmp_url t key START_DATE END_DATE))
             (filter (stores_nothing (yf_attempt w START_DATE END_DATE))
                (str_tickers col))
       | None => []
       end.
Proof.
  intros Hread Hcol. unfold main.
  rewrite (get_sp500_tickers_column _ _ _ _ Hread Hcol).
  autorewrite with run. cbn [app].
  destruct (str_tickers col) as [|t ts] eqn:Et.
  - autorewrite with run. simpl. now destruct (usable_key _).
  - autorewrite with run. rewrite filter_app, collect_returns_calls.
    rewrite failed_of_filter.
    destruct (DataFrame_of_dict _); autorewrite with run; simpl;
      now rewrite app_nil_r.
Qed.

Lemma provider_call_sequence_witness :
  read_csv Sample.w_ok default_csv_file = inr Sample.csv_AB
  /\ csv_column "Symbol" Sample.csv_AB
     = Some [CsvStr "A"; CsvNaN; CsvStr "B"; CsvStr "A"]
  /\ filter is_call (log (main Sample.w_ok))
     = [YfDownload "A"%string; YfDownload "B"%string; YfDownload "A"%string;
        FmpGet "B"%string (fmp_url "B"%string "k" START_DATE END_DATE)].
Proof.
  split; [reflexivity|]. split; [reflexivity|].
  exact (provider_call_sequence Sample.w_ok Sample.csv_AB _ eq_refl eq_refl).
Defined.

(** ** When a loop stores an entry *)

Lemma raise_for_status_None r :
  raise_for_status r = None <-> status_code r < 400 \/ 600 <= status_code r.
Proof.
  unfold raise_for_status.
  destruct (400 <=? status_code r) eqn:E1; destruct (status_code r <? 600) eqn:E2;
    simpl; rewrite ?Z.leb_le, ?Z.leb_gt, ?Z.ltb_lt, ?Z.ltb_ge in *;
    split; intros H; try reflexivity; try discriminate; lia.
Qed.

(** X3.  The mapping returned by [get_stock_data_yf] has a ticker as key
    exactly when the ticker is in the list and the download returned a
    frame with a [Close] column and at least one row; a raised
    exception, an empty frame or a missing column all leave it out. *)
Theorem yf_entry_condition {L : Libraries} (w : World) (tickers : list ticker)
  (start end_ : string) (t : ticker) :
  In t (keys (result (get_stock_data_yf w tickers start end_)))
  <-> In t tickers
      /\ exists close, yf_download w t start end_ = inr (FrameWithClose close)
                       /\ close <> [].
Proof.
  unfold get_stock_data_yf. rewrite yf_loop_result.
  rewrite <- dict_mem_keys. unfold dict_mem. rewrite store_all_empty_get.
  destruct (in_dec string_dec t tickers) as [Hin|Hnin].
  - destruct (yf_attempt w start end_ t) as [r|] eqn:E.
    + apply yf_attempt_Some in E. destruct E as (close & Hd & Hne & _).
      split; [intros _; split; [assumption|]; now exists close | reflexivity].
    + split; [discriminate|]. intros (_ & close & Hd & Hne). exfalso.
      assert (H : yf_attempt w start end_ t
                  = Some (stored_Return yf_rewritten close))
        by (apply yf_attempt_Some; now exists close).
      congruence.
  - split; [discriminate | intros [H _]; contradiction].
Qed.

(** X4.  The mapping returned by [get_stock_data_fmp] has a ticker as key
    exactly when the ticker is in the list, the request returned a
    response whose status is outside 400..599, and the body holds a
    [historical] list with at least one record.  An error status hides
    even a usable body. *)
Theorem fmp_entry_condition {L : Libraries} (w : World) (tickers : list ticker)
  (key start end_ : string) (t : ticker) :
  In t (keys (result (get_stock_data_fmp w tickers key start end_)))
  <-> In t tickers
      /\ exists resp recs,
           requests_get w (fmp_url t key start end_) = inr resp
           /\ (status_code resp < 400 \/ 600 <= status_code resp)
           /\ text resp = Historical recs /\ recs <> [].
Proof.
  unfold get_stock_data_fmp. rewrite fmp_loop_result.
  rewrite <- dict_mem_keys. unfold dict_mem. rewrite store_all_empty_get.
  destruct (in_dec string_dec t tickers) as [Hin|Hnin].
  - destruct (fmp_attempt w start end_ key t) as [r|] eqn:E.
    + apply fmp_attempt_Some in E.
      destruct E as (resp & recs & Hr & Hs & Ht & Hne & _).
      split; [intros _; split; [assumption|] | reflexivity].
      exists resp, recs. rewrite <- raise_for_status_None. auto.
    + split; [discriminate|].
      intros (_ & resp & recs & Hr & Hs & Ht & Hne). exfalso.
      assert (H : fmp_attempt w start end_ key t
                  = Some (stored_Return fmp_rewritten (sort_index recs))).
      { apply fmp_attempt_Some. exists resp, recs.
        rewrite raise_for_status_None. auto. }
      congruence.
  - split; [discriminate | intros [H _]; contradiction].
Qed.

(** X5.  A response with a status from 400 to 599 never yields an entry,
    whatever its body: the attempt raises [HTTPError]. *)
Theorem http_error_status_discards_body {L : Libraries} (w : World) (t : ticker)
  (key start end_ : string) (resp : http_response) :
  requests_get w (fmp_url t key start end_) = inr resp ->
  400 <= status_code resp < 600 ->
  fmp_try w t key start end_ = inl (HTTPError (status_code resp))
  /\ forall tickers,
       dict_get t (result (get_stock_data_fmp w tickers key start end_)) = None.
Proof.
  intros Hr Hs.
  assert (Htry : fmp_try w t key start end_ = inl (HTTPError (status_code resp))).
  { unfold fmp_try, raise_for_status. rewrite Hr.
    destruct (400 <=? status_code resp) eqn:E1; [|apply Z.leb_gt in E1; lia].
    destruct (status_code resp <? 600) eqn:E2; [|apply Z.ltb_ge in E2; lia].
    reflexivity. }
  split; [exact Htry|]. intros tickers.
  unfold get_stock_data_fmp. rewrite fmp_loop_result, store_all_empty_get.
  destruct (in_dec string_dec t tickers); [|reflexivity].
  unfold fmp_attempt. now rewrite Htry.
Qed.

Lemma http_error_status_discards_body_witness :
  requests_get Sample2.w_404 (fmp_url "B"%string "k" START_DATE END_DATE)
  = inr {| status_code := 404; text := Sample.fmp_B |}
  /\ 400 <= 404 < 600
  /\ fmp_try Sample2.w_404 "B"%string "k" START_DATE END_DATE
     = inl (HTTPError 404).
Proof.
  split; [reflexivity|]. split; [lia|].
  refine (proj1 (http_error_status_discards_body Sample2.w_404 "B"%string
                   "k"%string START_DATE END_DATE _ eq_refl _)).
  simpl. lia.
Defined.

(** ** The shape of a retained series *)

(** X6.  Every series of the final mapping has at least one row, and its
    first value is NaN, whether or not the replacement reached the
    frame. *)
Theorem retained_series_shape {L : Libraries} (w : World)
  (tickers : list ticker) (FMP_API_KEY : option string) (t : ticker)
  (s : Series cell) :
  dict_get t (result (collect_returns w tickers FMP_API_KEY)) = Some s ->
  exists d rest, s = (d, NaN) :: rest.
Proof.
  intros H.
  assert (Hin : In t tickers).
  { apply collect_returns_keys with (w := w) (FMP_API_KEY := FMP_API_KEY).
    apply dict_get_In in H. change t with (fst (t, s)). now apply in_map. }
  rewrite collect_returns_get in H by assumption.
  destruct (yf_attempt w START_DATE END_DATE t) as [r|] eqn:Ey.
  - inversion H; subst r. apply yf_attempt_Some in Ey.
    destruct Ey as (close & _ & Hne & ->). now apply stored_Return_nonempty.
  - destruct (usable_key FMP_API_KEY) as [key|]; [|discriminate].
    apply fmp_attempt_Some in H.
    destruct H as (resp & recs & _ & _ & _ & Hne & ->).
    apply stored_Return_nonempty.
    intros E. apply Hne. apply Permutation_nil.
    unfold sort_index in E. rewrite <- E. apply sort_by_perm.
Qed.

Lemma retained_series_shape_witness :
  dict_get "A"%string
    (result (collect_returns Sample.w_ok ["A"; "B"]%string (Some "k"%string)))
  = Some [(1, NaN); (2, Fin (1#10))]
  /\ exists d rest, [(1, NaN); (2, Fin (1#10))] = (d, NaN) :: rest.
Proof.
  split; [vm_compute; reflexivity|].
  apply (retained_series_shape Sample.w_ok ["A"; "B"]%string
           (Some "k"%string) "A"%string [(1, NaN); (2, Fin (1#10))]).
  vm_compute; reflexivity.
Defined.

(** X7.  A download of exactly one row counts as a success: the ticker
    gets the one-row series holding NaN, and FMP is not asked for it,
    although the series holds no return. *)
Theorem single_row_history_is_kept {L : Libraries} (w : World) (tickers : list ticker)
  (FMP_API_KEY : option string) (t : ticker) (d : date) (p : price) :
  In t tickers ->
  yf_download w t START_DATE END_DATE = inr (FrameWithClose [(d, p)]) ->
  dict_get t (result (collect_returns w tickers FMP_API_KEY)) = Some [(d, NaN)]
  /\ forall url, ~ In (FmpGet t url) (log (collect_returns w tickers FMP_API_KEY)).
Proof.
  intros Hin Hd.
  assert (Hy : yf_attempt w START_DATE END_DATE t = Some [(d, NaN)]).
  { unfold yf_attempt, yf_try. rewrite Hd. simpl.
    now destruct yf_rewritten. }
  split.
  - rewrite collect_returns_get by assumption. now rewrite Hy.
  - intros url Hev. apply collect_returns_FmpGet in Hev.
    destruct Hev as (key & _ & _ & _ & Hnone). congruence.
Qed.

Lemma single_row_history_is_kept_witness :
  In "B"%string ["A"; "B"]%string
  /\ yf_download Sample2.w_one_row "B"%string START_DATE END_DATE
     = inr (FrameWithClose [(7, 3#1)])
  /\ dict_get "B"%string
       (result (collect_returns Sample2.w_one_row ["A"; "B"]%string
                  (Some "k"%string)))
     = Some [(7, NaN)].
Proof.
  split; [right; left; reflexivity|]. split; [reflexivity|].
  refine (proj1 (single_row_history_is_kept Sample2.w_one_row ["A"; "B"]%string
                   (Some "k"%string) "B"%string 7 (3#1) _ eq_refl)).
  right; left; reflexivity.
Defined.

(** ** Sorting makes the FMP series independent of delivery order *)

Lemma key_injective_on_NoDup {A} (key : A -> Z) (l : list A) x y :
  NoDup (map key l) -> In x l -> In y l -> key x = key y -> x = y.
Proof.
  induction l as [|z r IH]; simpl; intros Hnd Hx Hy Hk; [contradiction|].
  inversion Hnd as [|? ? Hnin Hr]; subst.
  destruct Hx as [->|Hx]; destruct Hy as [->|Hy]; auto.
  - exfalso. apply Hnin. rewrite Hk. now apply in_map.
  - exfalso. apply Hnin. rewrite <- Hk. now apply in_map.
Qed.

Lemma sorted_perm_unique {A} (key : A -> Z) (l1 : list A) : forall l2,
  StronglySorted (key_le key) l1 -> StronglySorted (key_le key) l2 ->
  Permutation l1 l2 -> NoDup (map key l1) -> l1 = l2.
Proof.
  induction l1 as [|x r1 IH]; intros l2 H1 H2 Hp Hnd.
  - apply Permutation_nil in Hp. now subst.
  - destruct l2 as [|y r2]; [symmetry in Hp; now apply Permutation_nil in Hp|].
    inversion H1 as [|? ? Hs1 Hx]; subst. inversion H2 as [|? ? Hs2 Hy]; subst.
    rewrite Forall_forall in Hx, Hy.
    assert (Hxy : x = y).
    { assert (Hxin : In x (y :: r2))
        by (eapply Permutation_in; [exact Hp | now left]).
      assert (Hyin : In y (x :: r1))
        by (eapply Permutation_in; [symmetry; exact Hp | now left]).
      destruct Hxin as [E|Hxin]; [now subst|].
      destruct Hyin as [E|Hyin]; [now subst|].
      apply (key_injective_on_NoDup key (x :: r1)); auto; [now left | now right|].
      specialize (Hx y Hyin). specialize (Hy x Hxin). unfold key_le in *. lia. }
    subst y. f_equal. apply IH; auto.
    + eapply Permutation_cons_inv. exact Hp.
    + now inversion Hnd.
Qed.

Lemma sort_index_perm_eq {A} (s s' : Series A) :
  Permutation s s' -> NoDup (dates s) -> sort_index s = sort_index s'.
Proof.
  intros Hp Hnd. unfold sort_index.
  apply (sorted_perm_unique fst); try apply sort_by_sorted.
  - rewrite sort_by_perm, Hp. symmetry. apply sort_by_perm.
  - eapply Permutation_NoDup; [|exact Hnd].
    apply Permutation_map. symmetry. apply sort_by_perm.
Qed.

(** X8.  When no date is repeated, the order in which FMP delivers the
    records does not matter: two responses with the same status whose
    records are a rearrangement of each other give the same outcome of
    the attempt. *)
Theorem fmp_delivery_order_irrelevant {L : Libraries} (w w' : World) (t : ticker)
  (key start end_ : string) (resp resp' : http_response)
  (recs recs' : list (date * price)) :
  requests_get w (fmp_url t key start end_) = inr resp ->
  requests_get w' (fmp_url t key start end_) = inr resp' ->
  status_code resp = status_code resp' ->
  text resp = Historical recs ->
  text resp' = Historical recs' ->
  Permutation recs recs' ->
  NoDup (dates recs) ->
  fmp_try w t key start end_ = fmp_try w' t key start end_.
Proof.
  intros Hr Hr' Hs Ht Ht' Hp Hnd. unfold fmp_try, raise_for_status.
  rewrite Hr, Hr', Hs, Ht, Ht'.
  destruct ((400 <=? status_code resp') && (status_code resp' <? 600));
    [reflexivity|].
  destruct recs as [|r rs]; destruct recs' as [|r' rs']; try reflexivity.
  - now apply Permutation_nil in Hp.
  - symmetry in Hp. now apply Permutation_nil in Hp.
  - now rewrite (sort_index_perm_eq _ _ Hp Hnd).
Qed.

Lemma fmp_delivery_order_irrelevant_witness :
  Permutation [(3, 19#1); (2, 20#1)] [(2, 20#1); (3, 19#1)]
  /\ NoDup (dates [(3, 19#1); (2, 20#1)])
  /\ fmp_try Sample.w_ok "B"%string "k" START_DATE END_DATE
     = fmp_try Sample2.w_oldest_first "B"%string "k" START_DATE END_DATE.
Proof.
  assert (Hp : Permutation [(3, 19#1); (2, 20#1)] [(2, 20#1); (3, 19#1)])
    by apply perm_swap.
  assert (Hnd : NoDup (dates [(3, 19#1); (2, 20#1)])).
  { simpl. repeat constructor; simpl; intuition lia. }
  split; [exact Hp|]. split; [exact Hnd|].
  exact (fmp_delivery_order_irrelevant Sample.w_ok Sample2.w_oldest_first
           "B"%string "k"%string START_DATE END_DATE
           {| status_code := 200; text := Sample.fmp_B |}
           {| status_code := 200; text := Historical [(2, 20#1); (3, 19#1)] |}
           _ _ eq_refl eq_refl eq_refl eq_refl eq_refl Hp Hnd).
Defined.

Lemma sorted_map_le {A} (key : A -> Z) (l : list A) :
  StronglySorted Z.le (map key l) -> StronglySorted (key_le key) l.
Proof.
  induction l as [|x l IH]; simpl; intros H; [constructor|].
  inversion H as [|? ? Hl Hx]; subst. constructor; [now apply IH|].
  rewrite Forall_map in Hx. exact Hx.
Qed.

Lemma replace_inf_pct_change_from s : forall prev,
  ~ prev == 0 ->
  Forall (fun dp => ~ snd dp == 0) s ->
  replace_inf (pct_change_from prev s) = pct_change_from prev s.
Proof.
  induction s as [|[d p] r IH]; intros prev Hprev Hall; [reflexivity|].
  inversion Hall as [|? ? Hp Hr]; subst. simpl in Hp.
  destruct (change_nonzero prev p Hprev) as (q & Hq & _).
  simpl. rewrite Hq. simpl. f_equal. now apply IH.
Qed.

Lemma stored_Return_no_zero b close :
  Forall (fun dp => ~ snd dp == 0) close ->
  stored_Return b close = pct_change close.
Proof.
  intros Hall. destruct b; [|reflexivity].
  destruct close as [|[d p] rest]; [reflexivity|].
  inversion Hall as [|? ? Hp Hr]; subst. simpl in Hp.
  unfold stored_Return, Return. simpl. f_equal.
  now apply replace_inf_pct_change_from.
Qed.

(** X9.  The two providers agree on the same history when no price in it
    is zero: if yfinance delivers for a ticker the rows that FMP
    delivers, with a non-error status, as records already in ascending
    date order, both attempts store the same series, whether or not the
    replacement reached either frame, and both store nothing when there
    are no rows. *)
Theorem providers_agree_on_same_history {L : Libraries} (w w' : World)
  (t : ticker) (key start end_ : string) (resp : http_response)
  (history : Series price) :
  yf_download w t start end_ = inr (FrameWithClose history) ->
  requests_get w' (fmp_url t key start end_) = inr resp ->
  raise_for_status resp = None ->
  text resp = Historical history ->
  StronglySorted Z.le (dates history) ->
  Forall (fun dp => ~ snd dp == 0) history ->
  yf_attempt w start end_ t = fmp_attempt w' start end_ key t.
Proof.
  intros Hy Hr Hs Ht Hsorted Hnz.
  unfold yf_attempt, fmp_attempt, yf_try, fmp_try. rewrite Hy, Hr, Hs, Ht.
  destruct history as [|r rs]; [reflexivity|]. simpl frame_empty. cbv iota.
  unfold sort_index. rewrite sort_by_sorted_id by now apply sorted_map_le.
  now rewrite !stored_Return_no_zero.
Qed.

Lemma providers_agree_on_same_history_witness :
  StronglySorted Z.le (dates [(1, 10#1); (2, 11#1)])
  /\ yf_attempt Sample.w_ok START_DATE END_DATE "A"%string
     = fmp_attempt Sample2.w_fmp_A START_DATE END_DATE "k" "A"%string.
Proof.
  assert (Hs : StronglySorted Z.le (dates [(1, 10#1); (2, 11#1)])).
  { simpl. repeat constructor; lia. }
  assert (Hnz : Forall (fun dp : date * price => ~ snd dp == 0)
                  [(1, 10#1); (2, 11#1)]).
  { repeat constructor; simpl; discriminate. }
  split; [exact Hs|].
  exact (providers_agree_on_same_history Sample.w_ok Sample2.w_fmp_A
           "A"%string "k"%string START_DATE END_DATE
           {| status_code := 200; text := Historical [(1, 10#1); (2, 11#1)] |}
           [(1, 10#1); (2, 11#1)] eq_refl eq_refl eq_refl eq_refl Hs Hnz).
Defined.

(** ** The frame, for arbitrary series *)

Lemma reindex_length s idx col :
  reindex s idx = inr col -> List.length col = List.length idx.
Proof.
  unfold reindex. destruct (dates_eqb (dates s) idx) eqn:E.
  - apply dates_eqb_eq in E. subst idx. intros H. inversion H.
    unfold values, dates. now rewrite !List.length_map.
  - destruct (has_duplicates (dates s)); [discriminate|].
    intros H. inversion H. apply List.length_map.
Qed.

Lemma homogenize_lengths d idx : forall cols,
  homogenize d idx = inr cols ->
  forall t col, In (t, col) cols -> List.length col = List.length idx.
Proof.
  induction d as [|[t0 s] r IH]; simpl; intros cols H t col Hin.
  - inversion H; subst. contradiction.
  - destruct (reindex s idx) as [e|c] eqn:Er; [discriminate|].
    destruct (homogenize r idx) as [e|cs] eqn:Eh; [discriminate|].
    inversion H; subst. destruct Hin as [Heq|Hin].
    + inversion Heq; subst. eapply reindex_length, Er.
    + eapply IH; [reflexivity | exact Hin].
Qed.

(** X12.  Whenever the frame is built it is rectangular and keeps the
    mapping's tickers: its columns are the keys of the mapping in the
    same order, and every column is as long as the row index. *)
Theorem frame_is_rectangular (d : dict (Series cell)) (df : DataFrame) :
  DataFrame_of_dict d = inr df ->
  keys (columns df) = keys d
  /\ forall t col, In (t, col) (columns df) -> List.length col = List.length (index df).
Proof.
  intros H. split; [now apply DataFrame_of_dict_keys|].
  unfold DataFrame_of_dict in H.
  destruct (homogenize d _) as [e|cols] eqn:E; [discriminate|].
  inversion H; subst. simpl. eapply homogenize_lengths, E.
Qed.

Lemma frame_is_rectangular_witness :
  DataFrame_of_dict [("A"%string, [(1, NaN); (2, Fin (1#10))]);
                     ("B"%string, [(2, NaN); (3, Fin (-1#20))])]
  = inr {| index := [1; 2; 3];
           columns := [("A"%string, [NaN; Fin (1#10); NaN]);
                       ("B"%string, [NaN; NaN; Fin (-1#20)])] |}
  /\ keys [("A"%string, [NaN; Fin (1#10); NaN]);
           ("B"%string, [NaN; NaN; Fin (-1#20)])]
     = ["A"; "B"]%string.
Proof.
  split; [vm_compute; reflexivity|].
  exact (proj1 (frame_is_rectangular
                  [("A"%string, [(1, NaN); (2, Fin (1#10))]);
                   ("B"%string, [(2, NaN); (3, Fin (-1#20))])]
                  _ eq_refl)).
Defined.

(** X13.  Whenever the frame is built, its rows are labelled by exactly
    the dates that occur in some series of the mapping: no date is lost
    and none is invented, also when series are unsorted or repeat a
    date. *)
Theorem frame_rows_are_the_dates (d : dict (Series cell)) (df : DataFrame) :
  DataFrame_of_dict d = inr df ->
  forall day, In day (index df)
              <-> exists t s, In (t, s) d /\ In day (dates s).
Proof.
  intros H day. unfold DataFrame_of_dict in H.
  destruct (homogenize d _) as [e|cols]; [discriminate|].
  inversion H; subst. simpl. rewrite union_indexes_In. split.
  - intros (i & Hi & Hd). apply in_map_iff in Hi.
    destruct Hi as ([t s] & <- & Hm). exists t, s. auto.
  - intros (t & s & Hm & Hd). exists (dates s). split; [|exact Hd].
    apply in_map_iff. exists (t, s). auto.
Qed.

Lemma frame_rows_are_the_dates_witness :
  DataFrame_of_dict [("A"%string, [(5, NaN); (2, Fin (1#10))]);
                     ("B"%string, [(2, NaN); (7, Fin (1#2))])]
  = inr {| index := [2; 5; 7];
           columns := [("A"%string, [Fin (1#10); NaN; NaN]);
                       ("B"%string, [NaN; NaN; Fin (1#2)])] |}
  /\ (In 7 [2; 5; 7]
      <-> exists t s,
            In (t, s) [("A"%string, [(5, NaN); (2, Fin (1#10))]);
                       ("B"%string, [(2, NaN); (7, Fin (1#2))])]
            /\ In 7 (dates s)).
Proof.
  split; [vm_compute; reflexivity|].
  exact (frame_rows_are_the_dates
           [("A"%string, [(5, NaN); (2, Fin (1#10))]);
            ("B"%string, [(2, NaN); (7, Fin (1#2))])]
           _ eq_refl 7).
Defined.

Lemma has_duplicates_true l : has_duplicates l = true -> ~ NoDup l.
Proof.
  intros H Hnd. rewrite (has_duplicates_NoDup l Hnd) in H. discriminate.
Qed.

Lemma reindex_raises s idx e :
  reindex s idx = inl e ->
  e = ValueError "cannot reindex on an axis with duplicate labels"
  /\ ~ NoDup (dates s) /\ dates s <> idx.
Proof.
  unfold reindex. destruct (dates_eqb (dates s) idx) eqn:E; [discriminate|].
  destruct (has_duplicates (dates s)) eqn:Ed; [|discriminate].
  intros H. inversion H. split; [reflexivity|].
  split; [now apply has_duplicates_true|].
  intros Heq. apply dates_eqb_eq in Heq. congruence.
Qed.

Lemma homogenize_raises d idx e :
  homogenize d idx = inl e ->
  e = ValueError "cannot reindex on an axis with duplicate labels"
  /\ exists t s, In (t, s) d /\ ~ NoDup (dates s) /\ dates s <> idx.
Proof.
  induction d as [|[t s] r IH]; simpl; [discriminate|].
  destruct (reindex s idx) as [e'|c] eqn:Er.
  - intros H. inversion H; subst e'.
    destruct (reindex_raises _ _ _ Er) as (He & Hd & Hne).
    split; [exact He|]. exists t, s. auto.
  - destruct (homogenize r idx) as [e'|cs]; [|discriminate].
    intros H. inversion H; subst e'.
    destruct (IH eq_refl) as (He & t' & s' & Hin & Hd & Hne).
    split; [exact He|]. exists t', s'. auto.
Qed.

(** X14.  Building the frame can fail in one way only: with the
    [ValueError] about duplicate labels, and only when some series
    repeats a date and its dates are not already the row index. *)
Theorem frame_fails_only_on_repeated_dates (d : dict (Series cell)) (e : exn) :
  DataFrame_of_dict d = inl e ->
  e = ValueError "cannot reindex on an axis with duplicate labels"
  /\ exists t s,
       In (t, s) d /\ ~ NoDup (dates s)
       /\ dates s <> union_indexes (map (fun kv => dates (snd kv)) d).
Proof.
  unfold DataFrame_of_dict.
  destruct (homogenize d _) as [e'|cols] eqn:E; [|discriminate].
  intros H. inversion H; subst e'. eapply homogenize_raises, E.
Qed.

Lemma frame_fails_only_on_repeated_dates_witness :
  DataFrame_of_dict [("A"%string, [(1, NaN); (2, Fin (1#10))]);
                     ("B"%string, [(2, NaN); (2, Fin (0#1)); (3, Fin (0#1))])]
  = inl (ValueError "cannot reindex on an axis with duplicate labels")
  /\ exists t s,
       In (t, s) [("A"%string, [(1, NaN); (2, Fin (1#10))]);
                  ("B"%string, [(2, NaN); (2, Fin (0#1)); (3, Fin (0#1))])]
       /\ ~ NoDup (dates s)
       /\ dates s
          <> union_indexes
               (map (fun kv => dates (snd kv))
                  [("A"%string, [(1, NaN); (2, Fin (1#10))]);
                   ("B"%string, [(2, NaN); (2, Fin (0#1)); (3, Fin (0#1))])]).
Proof.
  split; [vm_compute; reflexivity|].
  exact (proj2 (frame_fails_only_on_repeated_dates
                  [("A"%string, [(1, NaN); (2, Fin (1#10))]);
                   ("B"%string, [(2, NaN); (2, Fin (0#1)); (3, Fin (0#1))])]
                  _ eq_refl)).
Defined.

Lemma index_union_same i : index_union i i = i.
Proof.
  unfold index_union. destruct i as [|x r]; [reflexivity|].
  assert (E : dates_eqb (x :: r) (x :: r) = true) by now apply dates_eqb_eq.
  now rewrite E.
Qed.

Lemma fold_index_union_same l i :
  Forall (eq i) l -> fold_left index_union l i = i.
Proof.
  induction 1 as [|b r Hb Hr IH]; simpl; [reflexivity|].
  subst b. now rewrite index_union_same.
Qed.

Lemma homogenize_same d i :
  (forall t s, In (t, s) d -> dates s = i) ->
  homogenize d i = inr (map (fun kv => (fst kv, values (snd kv))) d).
Proof.
  induction d as [|[t s] r IH]; intros H; simpl; [reflexivity|].
  unfold reindex.
  assert (E : dates_eqb (dates s) i = true)
    by (apply dates_eqb_eq; eapply H; now left).
  rewrite E, IH; [reflexivity|]. intros t' s' Hin. eapply H. right. exact Hin.
Qed.

(** X15.  When all series of a non-empty mapping carry the same list of
    dates, whatever its order and repetitions, the frame is built with
    that list as row index and every series' values unchanged in its
    column. *)
Theorem same_calendar_frame (d : dict (Series cell)) (i : list date) :
  d <> [] ->
  (forall t s, In (t, s) d -> dates s = i) ->
  DataFrame_of_dict d
  = inr {| index := i;
           columns := map (fun kv => (fst kv, values (snd kv))) d |}.
Proof.
  intros Hne Hsame. unfold DataFrame_of_dict.
  assert (Hidx : union_indexes (map (fun kv => dates (snd kv)) d) = i).
  { destruct d as [|[t s] r]; [contradiction|]. simpl.
    rewrite (Hsame t s (or_introl eq_refl)). apply fold_index_union_same.
    apply Forall_forall. intros j Hj. apply in_map_iff in Hj.
    destruct Hj as ([t' s'] & <- & Hin). simpl. symmetry.
    eapply Hsame. right. exact Hin. }
  rewrite Hidx, homogenize_same by assumption. reflexivity.
Qed.

Lemma same_calendar_frame_witness :
  [("A"%string, [(3, NaN); (1, Fin (1#10)); (3, NaN)]);
   ("B"%string, [(3, Fin (1#2)); (1, NaN); (3, Fin (1#4))])] <> []
  /\ DataFrame_of_dict
       [("A"%string, [(3, NaN); (1, Fin (1#10)); (3, NaN)]);
        ("B"%string, [(3, Fin (1#2)); (1, NaN); (3, Fin (1#4))])]
     = inr {| index := [3; 1; 3];
              columns := [("A"%string, [NaN; Fin (1#10); NaN]);
                          ("B"%string, [Fin (1#2); NaN; Fin (1#4)])] |}.
Proof.
  assert (Hne : [("A"%string, [(3, NaN); (1, Fin (1#10)); (3, NaN)]);
                 ("B"%string, [(3, Fin (1#2)); (1, NaN); (3, Fin (1#4))])]
                <> []) by discriminate.
  split; [exact Hne|].
  apply (same_calendar_frame _ [3; 1; 3] Hne).
  intros t s [H|[H|[]]]; inversion H; reflexivity.
Defined.

(** ** Runs in which nothing is available *)

Lemma store_all_nothing attempt ts : forall d,
  (forall t, In t ts -> attempt t = None) -> store_all attempt ts d = d.
Proof.
  induction ts as [|t rest IH]; intros d H; [reflexivity|].
  simpl. rewrite (H t (or_introl eq_refl)). apply IH.
  intros t' Hin. apply H. now right.
Qed.

(** X16.  When the ticker list is read and names at least one ticker but
    neither provider stores a series for any of them, the run does not
    exit early: it finishes with an empty mapping and a frame without
    rows and without columns. *)
Theorem nothing_available_gives_empty_frame {L : Libraries} (w : World) (df : csv_table)
  (col : list csv_value) :
  read_csv w default_csv_file = inr df ->
  csv_column "Symbol" df = Some col ->
  str_tickers col <> [] ->
  (forall t, yf_attempt w START_DATE END_DATE t = None) ->
  (forall key t, fmp_attempt w START_DATE END_DATE key t = None) ->
  result (main w) = Finished [] {| index := []; columns := [] |}.
Proof.
  intros Hread Hcol Hne Hyf Hfmp. rewrite main_result.
  rewrite (get_sp500_tickers_column _ _ _ _ Hread Hcol). autorewrite with run.
  destruct (str_tickers col) as [|t ts]; [contradiction|].
  assert (Hres : result (collect_returns w (t :: ts) (getenv w "FMP_API_KEY")) = []).
  { rewrite collect_returns_result.
    assert (Hp : primary_mapping w (t :: ts) = []).
    { rewrite primary_mapping_eq. apply store_all_nothing. intros; apply Hyf. }
    rewrite Hp. destruct (failed_of (t :: ts) []); [reflexivity|].
    destruct (usable_key _) as [key|]; [|reflexivity].
    unfold secondary_mapping, get_stock_data_fmp.
    rewrite fmp_loop_result, store_all_nothing; [reflexivity|].
    intros; apply Hfmp. }
  rewrite Hres. reflexivity.
Qed.

Lemma nothing_available_gives_empty_frame_witness :
  read_csv Sample2.w_nothing default_csv_file = inr Sample.csv_AB
  /\ str_tickers [CsvStr "A"; CsvNaN; CsvStr "B"; CsvStr "A"] <> []
  /\ result (main Sample2.w_nothing)
     = Finished [] {| index := []; columns := [] |}.
Proof.
  split; [reflexivity|]. split; [discriminate|].
  apply (nothing_available_gives_empty_frame Sample2.w_nothing Sample.csv_AB
           [CsvStr "A"; CsvNaN; CsvStr "B"; CsvStr "A"] eq_refl eq_refl).
  - discriminate.
  - reflexivity.
  - reflexivity.
Defined.

(** X17.  With a usable key, a ticker of the list for which neither
    attempt stores a series is requested from FMP and still has no entry
    in the final mapping. *)
Theorem both_providers_fail {L : Libraries} (w : World) (tickers : list ticker)
  (FMP_API_KEY : option string) (key : string) (t : ticker) :
  In t tickers ->
  usable_key FMP_API_KEY = Some key ->
  yf_attempt w START_DATE END_DATE t = None ->
  fmp_attempt w START_DATE END_DATE key t = None ->
  In (FmpGet t (fmp_url t key START_DATE END_DATE))
     (log (collect_returns w tickers FMP_API_KEY))
  /\ dict_get t (result (collect_returns w tickers FMP_API_KEY)) = None.
Proof.
  intros Hin Hk Hy Hf. split.
  - apply collect_returns_FmpGet. exists key. auto.
  - rewrite collect_returns_get by assumption. now rewrite Hy, Hk.
Qed.

Lemma both_providers_fail_witness :
  In "B"%string ["A"; "B"]%string
  /\ usable_key (Some "k"%string) = Some "k"%string
  /\ dict_get "B"%string
       (result (collect_returns Sample2.w_404 ["A"; "B"]%string (Some "k"%string)))
     = None.
Proof.
  split; [right; left; reflexivity|]. split; [reflexivity|].
  refine (proj2 (both_providers_fail Sample2.w_404 ["A"; "B"]%string
                   (Some "k"%string) "k"%string "B"%string _ eq_refl eq_refl eq_refl)).
  right; left; reflexivity.
Defined.

(** ** The order of the columns *)

Lemma keys_dict_set_append {V} (d : dict V) k v :
  keys (dict_set k v d) = append_new (keys d) k.
Proof.
  unfold append_new. induction d as [|[k' v'] r IH]; simpl; [reflexivity|].
  destruct (String.eqb k k') eqn:E; simpl.
  - apply String.eqb_eq in E. now subst.
  - rewrite IH. now destruct (existsb (String.eqb k) (keys r)).
Qed.

Lemma keys_store_all attempt ts : forall d,
  keys (store_all attempt ts d)
  = fold_left append_new (filter (stores_something attempt) ts) (keys d).
Proof.
  induction ts as [|t rest IH]; intros d; [reflexivity|].
  simpl. rewrite IH. unfold stores_something, stores_nothing.
  destruct (attempt t); simpl; [now rewrite keys_dict_set_append | reflexivity].
Qed.

Lemma keys_dict_update_fold {V} (o : dict V) : forall d,
  keys (dict_update d o) = fold_left append_new (keys o) (keys d).
Proof.
  unfold dict_update.
  induction o as [|[k v] r IH]; intros d; simpl; [reflexivity|].
  now rewrite IH, keys_dict_set_append.
Qed.

Lemma existsb_eqb_In t l : existsb (String.eqb t) l = true <-> In t l.
Proof.
  rewrite existsb_exists. split.
  - intros (x & Hx & E). apply String.eqb_eq in E. now subst.
  - intros H. exists t. split; [exact H | apply String.eqb_refl].
Qed.

Lemma fold_append_new_disjoint l : forall seen,
  NoDup l -> (forall t, In t l -> ~ In t seen) ->
  fold_left append_new l seen = seen ++ l.
Proof.
  induction l as [|x r IH]; intros seen Hnd Hdis; simpl;
    [now rewrite app_nil_r|].
  inversion Hnd as [|? ? Hnin Hr]; subst.
  unfold append_new at 2.
  destruct (existsb (String.eqb x) seen) eqn:E.
  - apply existsb_eqb_In in E. exfalso. now apply (Hdis x (or_introl eq_refl)).
  - rewrite IH; [now rewrite <- app_assoc | assumption|].
    intros t Ht Hin. apply in_app_or in Hin. destruct Hin as [Hin|[->|[]]].
    + now apply (Hdis t (or_intror Ht)).
    + contradiction.
Qed.

(** X18.  The keys of the final mapping, which are the columns of the
    frame, come in this order: first the tickers yfinance served, in the
    order of their first appearance in the list, then the tickers FMP
    served, likewise. *)
Theorem column_order {L : Libraries} (w : World) (tickers : list ticker)
  (FMP_API_KEY : option string) :
  keys (result (collect_returns w tickers FMP_API_KEY))
  = first_occurrences
      (filter (stores_something (yf_attempt w START_DATE END_DATE)) tickers)
    ++ match usable_key FMP_API_KEY with
       | Some key =>
           first_occurrences
             (filter (stores_something (fmp_attempt w START_DATE END_DATE key))
                (filter (stores_nothing (yf_attempt w START_DATE END_DATE))
                   tickers))
       | None => []
       end.
Proof.
  assert (Hp : keys (primary_mapping w tickers)
               = first_occurrences
                   (filter (stores_something (yf_attempt w START_DATE END_DATE))
                      tickers)).
  { rewrite primary_mapping_eq. apply keys_store_all. }
  rewrite collect_returns_result, <- Hp.
  destruct (usable_key FMP_API_KEY) as [key|].
  - assert (Hs : keys (secondary_mapping w tickers key)
                 = first_occurrences
                     (filter (stores_something
                                (fmp_attempt w START_DATE END_DATE key))
                        (filter (stores_nothing
                                   (yf_attempt w START_DATE END_DATE))
                           tickers))).
    { rewrite secondary_mapping_eq, failed_of_filter. apply keys_store_all. }
    rewrite <- Hs.
    assert (Hupd : keys (dict_update (primary_mapping w tickers)
                           (secondary_mapping w tickers key))
                   = keys (primary_mapping w tickers)
                     ++ keys (secondary_mapping w tickers key)).
    { rewrite keys_dict_update_fold. apply fold_append_new_disjoint.
      - apply secondary_NoDup.
      - intros t Hsec Hprim. apply secondary_keys in Hsec.
        destruct Hsec as [Hin Hnone].
        apply dict_mem_keys in Hprim. unfold dict_mem in Hprim.
        rewrite primary_get, Hnone in Hprim by assumption. discriminate. }
    destruct (failed_of tickers (primary_mapping w tickers)) eqn:Ef.
    + unfold secondary_mapping, get_stock_data_fmp. rewrite Ef.
      simpl. now rewrite app_nil_r.
    + exact Hupd.
  - rewrite app_nil_r. now destruct (failed_of _ _).
Qed.

(** ** Diagnostics *)

Lemma yf_loop_reports {L : Libraries} (w : World) (start end_ : string) (t : ticker) ts :
  forall d, In t ts ->
  (forall e, yf_try w t start end_ = inl e ->
     In (Print ("Error collecting data for " ++ t
                  ++ " using yfinance: " ++ exn_text e))
        (log (yf_loop w ts start end_ d)))
  /\ (yf_try w t start end_ = inr None ->
      In (Print ("No data found for " ++ t ++ " using yfinance."))
         (log (yf_loop w ts start end_ d))).
Proof.
  induction ts as [|t0 rest IH]; intros d Hin; [contradiction|].
  cbn [yf_loop]. autorewrite with run. cbn [app].
  destruct Hin as [->|Hin].
  - split.
    + intros e He. rewrite He. autorewrite with run. cbn [app].
      right. right. now left.
    + intros He. rewrite He. autorewrite with run. cbn [app].
      right. right. now left.
  - split.
    + intros e He. right. right. apply in_or_app. right.
      now apply (proj1 (IH _ Hin)).
    + intros He. right. right. apply in_or_app. right.
      now apply (proj2 (IH _ Hin)).
Qed.

Lemma fmp_loop_reports {L : Libraries} (w : World) (key start end_ : string) (t : ticker) ts :
  forall d, In t ts ->
  (forall e, fmp_try w t key start end_ = inl e ->
     In (Print ("Error collecting data for " ++ t
                  ++ " using FMP: " ++ exn_text e))
        (log (fmp_loop w ts key start end_ d)))
  /\ (fmp_try w t key start end_ = inr None ->
      In (Print ("No historical data found for " ++ t ++ " on FMP."))
         (log (fmp_loop w ts key start end_ d))).
Proof.
  induction ts as [|t0 rest IH]; intros d Hin; [contradiction|].
  cbn [fmp_loop]. autorewrite with run. cbn [app].
  destruct Hin as [->|Hin].
  - split.
    + intros e He. rewrite He. autorewrite with run. cbn [app].
      right. right. now left.
    + intros He. rewrite He. autorewrite with run. cbn [app].
      right. right. now left.
  - split.
    + intros e He. right. right. apply in_or_app. right.
      now apply (proj1 (IH _ Hin)).
    + intros He. right. right. apply in_or_app. right.
      now apply (proj2 (IH _ Hin)).
Qed.

(** X19.  Neither loop drops a ticker silently: for every ticker of the
    list whose attempt raised, the loop prints the error line ending in
    the text Python gives for the exception ([str(e)], whatever it is),
    and for every ticker whose attempt found nothing it prints the
    no-data line. *)
Theorem failed_ticker_is_reported {L : Libraries} (w : World) (tickers : list ticker)
  (key start end_ : string) (t : ticker) :
  In t tickers ->
  ((forall e, yf_try w t start end_ = inl e ->
      In (Print ("Error collecting data for " ++ t
                   ++ " using yfinance: " ++ exn_text e))
         (log (get_stock_data_yf w tickers start end_)))
   /\ (yf_try w t start end_ = inr None ->
       In (Print ("No data found for " ++ t ++ " using yfinance."))
          (log (get_stock_data_yf w tickers start end_))))
  /\ ((forall e, fmp_try w t key start end_ = inl e ->
         In (Print ("Error collecting data for " ++ t
                      ++ " using FMP: " ++ exn_text e))
            (log (get_stock_data_fmp w tickers key start end_)))
      /\ (fmp_try w t key start end_ = inr None ->
          In (Print ("No historical data found for " ++ t ++ " on FMP."))
             (log (get_stock_data_fmp w tickers key start end_)))).
Proof.
  intros Hin. split.
  - now apply yf_loop_reports.
  - now apply fmp_loop_reports.
Qed.

Lemma failed_ticker_is_reported_witness :
  In "B"%string ["A"; "B"]%string
  /\ yf_try Sample.w_ok "B"%string START_DATE END_DATE
     = inl (OtherException "no data")
  /\ In (Print "Error collecting data for B using yfinance: no data")
        (log (get_stock_data_yf Sample.w_ok ["A"; "B"]%string START_DATE END_DATE)).
Proof.
  split; [right; left; reflexivity|]. split; [reflexivity|].
  exact (proj1 (proj1 (failed_ticker_is_reported Sample.w_ok ["A"; "B"]%string
                         "k"%string START_DATE END_DATE "B"%string
                         (or_intror (or_introl eq_refl))))
           (OtherException "no data") eq_refl).
Defined.

(** ** Every way in which the run can end with an exception *)

Lemma get_sp500_tickers_raises (w : World) (csv_file : string) (e : exn) :
  result (get_sp500_tickers w csv_file) = inl e ->
  (read_csv w csv_file = inl e /\ e <> FileNotFoundError)
  \/ (exists df, read_csv w csv_file = inr df
                 /\ csv_column "Symbol" df = None
                 /\ e = KeyError "Symbol").
Proof.
  unfold get_sp500_tickers. destruct (read_csv w csv_file) as [e'|df].
  - destruct e'; simpl; autorewrite with run; intros H; inversion H; subst;
      left; split; try reflexivity; discriminate.
  - destruct (csv_column "Symbol" df) eqn:Ec; autorewrite with run;
      intros H; inversion H; subst. right. now exists df.
Qed.

(** X20.  An exception leaves [main] in three cases only: [read_csv]
    raised something other than [FileNotFoundError]; the file was read
    but has no [Symbol] column ([KeyError]); or the frame could not be
    built because a retained series repeats a date ([ValueError]).  No
    failure of a download or of an FMP request is among them. *)
Theorem fatal_errors_of_main {L : Libraries} (w : World) (e : exn) :
  result (main w) = Uncaught e ->
  (read_csv w default_csv_file = inl e /\ e <> FileNotFoundError)
  \/ (exists df, read_csv w default_csv_file = inr df
                 /\ csv_column "Symbol" df = None
                 /\ e = KeyError "Symbol")
  \/ (e = ValueError "cannot reindex on an axis with duplicate labels"
      /\ exists tickers t s,
           result (get_sp500_tickers w default_csv_file) = inr tickers
           /\ In (t, s) (result (collect_returns w tickers
                                   (getenv w "FMP_API_KEY")))
           /\ ~ NoDup (dates s)).
Proof.
  rewrite main_result.
  destruct (result (get_sp500_tickers w default_csv_file)) as [e'|[|t ts]] eqn:Eg.
  - intros H. inversion H; subst e'.
    destruct (get_sp500_tickers_raises _ _ _ Eg) as [Hl|Hr]; auto.
  - discriminate.
  - destruct (DataFrame_of_dict _) as [e'|df] eqn:Ed; [|discriminate].
    intros H. inversion H; subst e'. right. right.
    unfold DataFrame_of_dict in Ed.
    destruct (homogenize _ _) as [e'|cols] eqn:Eh; [|discriminate].
    inversion Ed; subst e'.
    destruct (homogenize_raises _ _ _ Eh) as (He & t' & s' & Hin & Hd & _).
    split; [exact He|]. exists (t :: ts), t', s'. auto.
Qed.

Lemma fatal_errors_of_main_witness :
  result (main Sample.w_repeated)
  = Uncaught (ValueError "cannot reindex on an axis with duplicate labels")
  /\ ((read_csv Sample.w_repeated default_csv_file
       = inl (ValueError "cannot reindex on an axis with duplicate labels")
       /\ ValueError "cannot reindex on an axis with duplicate labels"
          <> FileNotFoundError)
      \/ (exists df, read_csv Sample.w_repeated default_csv_file = inr df
                     /\ csv_column "Symbol" df = None
                     /\ ValueError "cannot reindex on an axis with duplicate labels"
                        = KeyError "Symbol")
      \/ (ValueError "cannot reindex on an axis with duplicate labels"
          = ValueError "cannot reindex on an axis with duplicate labels"
          /\ exists tickers t s,
               result (get_sp500_tickers Sample.w_repeated default_csv_file)
               = inr tickers
               /\ In (t, s) (result (collect_returns Sample.w_repeated tickers
                                       (getenv Sample.w_repeated "FMP_API_KEY")))
               /\ ~ NoDup (dates s))).
Proof.
  split; [vm_compute; reflexivity|].
  apply (fatal_errors_of_main Sample.w_repeated). vm_compute; reflexivity.
Defined.
